(** * GreenCart Logistics: the delivery simulation engine

    A shallow embedding of [backend/utils/simulationEngine.js] together with
    the model methods it calls ([models/Route.js], [models/Order.js],
    [models/Driver.js]).

    Conventions of the embedding.
    - A JavaScript number is an exact rational ([Q]); [Math.ceil] and
      [Math.round] return integers ([Z]).  The rounding of intermediate
      results to IEEE-754 doubles is outside the model, and so is [NaN],
      except where a value is an [option] ([None] standing for [NaN]).
    - Counters incremented by [++] are integers ([Z]).
    - The route lookup ([new Map()] keyed by [routeId]) is a [gmap Z Route].
    - Arrays are lists; an array the code writes to is threaded through the
      function that writes it, so that the caller's view after the call can
      be stated.

    Beside the engine the file embeds the methods of the models that the
    engine does not call, the time validator of the schemas, the row
    parsing of [backend/utils/dataSeeder.js] and the paging of the history
    in [routes/simulation.js]. *)

From Stdlib Require Import ZArith QArith Qround Qminmax Lqa Lia.
From Stdlib Require Import String Ascii List Permutation Sorted.
From Stdlib Require Import Decimal DecimalString DecimalZ DecimalPos.
From stdpp Require Import base option list gmap strings.

Local Open Scope Z_scope.

(** ** JavaScript numbers *)

Module JS.

(** [x > y] on numbers. *)
Definition gtb (x y : Q) : bool := negb (Qle_bool x y).

(** [x !== y] on numbers. *)
Definition neqb (x y : Q) : bool := negb (Qeq_bool x y).

(** [Math.ceil]. *)
Definition ceil (x : Q) : Z := Qceiling x.

(** [Math.round]: the nearest integer, a tie going up. *)
Definition round (x : Q) : Z := Qfloor (x + (1 # 2)).

(** [Math.max(x, y)]. *)
Definition max (x y : Q) : Q := Qmax x y.

(** [Number(s)] for a string of decimal digits ([Number("")] is 0); any
    other string is [NaN] here.  The schema validators only admit times
    written [H:MM] or [HH:MM], whose two parts are of this form. *)
Definition digit (c : ascii) : option Z :=
  let n := Z.of_nat (nat_of_ascii c) in
  if (48 <=? n) && (n <=? 57) then Some (n - 48) else None.

Fixpoint digits (acc : Z) (s : string) : option Z :=
  match s with
  | EmptyString => Some acc
  | String c s' =>
      match digit c with
      | Some d => digits (10 * acc + d) s'
      | None => None
      end
  end.

Definition Number (s : string) : option Z := digits 0 s.

(** [s.split(':')]. *)
Fixpoint split_colon (s : string) : list string :=
  match s with
  | EmptyString => [EmptyString]
  | String c s' =>
      let rest := split_colon s' in
      if Ascii.eqb c ":"%char then EmptyString :: rest
      else match rest with
           | h :: t => String c h :: t
           | [] => [String c EmptyString]
           end
  end.

(** [const [hours, minutes] = s.split(':').map(Number);
    return hours * 60 + minutes].  A missing second part is [undefined]
    and the sum is [NaN]. *)
Definition hhmm_minutes (s : string) : option Z :=
  match List.map Number (split_colon s) with
  | Some h :: Some m :: _ => Some (h * 60 + m)
  | _ => None
  end.

(** [Array.prototype.sort(cmp)] is stable: of two elements the later one
    moves in front only when the comparator is positive on (earlier,
    later).  [later_first a b] says that it is.  For a consistent
    comparator the stable order is unique; it is computed by insertion. *)
Section Sort.
Context {A : Type} (later_first : A -> A -> bool).

Fixpoint sort_insert (x : A) (l : list A) : list A :=
  match l with
  | [] => [x]
  | y :: l' => if later_first x y then y :: sort_insert x l' else x :: l
  end.

Fixpoint sort (l : list A) : list A :=
  match l with
  | [] => []
  | x :: l' => sort_insert x (sort l')
  end.
End Sort.

End JS.

(** ** models/Route.js *)

Inductive TrafficLevel := Low | Medium | High.

Module Route.

Record t := {
  routeId : Z;
  distanceKm : Q;
  trafficLevel : TrafficLevel;
  baseTimeMin : Q
}.

(** The table [{ 'Low': 1, 'Medium': 1.2, 'High': 1.5 }]. *)
Definition trafficMultiplier (l : TrafficLevel) : Q :=
  match l with
  | Low => 1
  | Medium => 12 # 10
  | High => 15 # 10
  end.

Definition getExpectedTime (r : t) : Z :=
  JS.ceil (baseTimeMin r * trafficMultiplier (trafficLevel r)).

End Route.

(** ** models/Order.js *)

Inductive OrderStatus := pending | assigned | in_transit | delivered | failed.

Module Order.

(** The fields the engine reads.  ([assignedDriver], [actualDeliveryTime],
    [penalty], [bonus] and the stored [isLate] are never read by it; the
    stored [isLate] is overwritten when an order is committed.) *)
Record t := {
  orderId : Z;
  valueRs : Q;
  routeId : Z;
  deliveryTime : string;
  status : OrderStatus
}.

Definition getDeliveryTimeInMinutes (o : t) : option Z :=
  JS.hhmm_minutes (deliveryTime o).

End Order.

(** ** models/Driver.js *)

Module Driver.

Record t := {
  _id : Z;
  name : string;
  shiftHours : Q;
  pastWeekHours : list Q;
  isAvailable : bool;
  currentDayHours : Q;
  fatigueLevel : Q
}.

(** [pastWeekHours[pastWeekHours.length - 1] > 8]; on an empty array the
    element is [undefined] and the comparison is false. *)
Definition isFatigued (d : t) : bool :=
  match last (pastWeekHours d) with
  | Some yesterdayHours => JS.gtb yesterdayHours 8
  | None => false
  end.

End Driver.

(** ** utils/simulationEngine.js *)

Module SimulationEngine.

Local Open Scope Q_scope.

Definition LATE_DELIVERY_PENALTY : Q := 50.
Definition HIGH_VALUE_BONUS_RATE : Q := 1 # 10.
Definition BASE_FUEL_COST : Q := 5.
Definition HIGH_TRAFFIC_SURCHARGE : Q := 2.
Definition FATIGUE_SPEED_REDUCTION : Q := 3 # 10.

(** An entry of [assignment.assignedOrders]:
    [{ ...order.toObject(), estimatedTime, isLate }]. *)
Record AssignedOrder := {
  order : Order.t;
  estimatedTime : Z;
  isLate : bool
}.

Record Assignment := {
  driverId : Z;
  driverName : string;
  assignedOrders : list AssignedOrder;
  totalHours : Q;
  isFatigued : bool
}.

Definition timeToMinutes (timeStr : string) : option Z :=
  JS.hhmm_minutes timeStr.

Definition calculateFuelCost (route : Route.t) : Q :=
  let cost := Route.distanceKm route * BASE_FUEL_COST in
  match Route.trafficLevel route with
  | High => cost + Route.distanceKm route * HIGH_TRAFFIC_SURCHARGE
  | _ => cost
  end.

Definition calculateOrderTime (route : Route.t) (fatigued : bool) : Z :=
  let baseTime := inject_Z (Route.getExpectedTime route) in
  let baseTime :=
    if fatigued then baseTime * (1 + FATIGUE_SPEED_REDUCTION) else baseTime in
  JS.ceil baseTime.

(** The order argument is not read. *)
Definition isOrderLate (o : Order.t) (route : Route.t) (fatigued : bool) : bool :=
  let expectedTime := calculateOrderTime route fatigued in
  let allowedTime := Route.baseTimeMin route + 10 in
  JS.gtb (inject_Z expectedTime) allowedTime.

Definition calculateAssignmentScore
    (a : Assignment) (o : Order.t) (route : Route.t) : Q :=
  let score := 100 in
  let score := if isFatigued a then score - 30 else score in
  let score := score - totalHours a * 2 in
  let score := if JS.gtb (Order.valueRs o) 1000 then score + 20 else score in
  match Route.trafficLevel route with
  | High => score - 10
  | Medium => score - 5
  | Low => score
  end.

(** *** optimizeOrderAssignment *)

(** [drivers.map(driver => ({ ... }))]. *)
Definition newAssignment (d : Driver.t) : Assignment :=
  {| driverId := Driver._id d;
     driverName := Driver.name d;
     assignedOrders := [];
     totalHours := 0;
     isFatigued := Driver.isFatigued d |}.

(** The comparator given to [orders.sort]; [None] is a [NaN] result, which
    [sort] takes as 0. *)
Definition compareOrders (a b : Order.t) : option Q :=
  if JS.neqb (Order.valueRs a) (Order.valueRs b)
  then Some (Order.valueRs b - Order.valueRs a)
  else match Order.getDeliveryTimeInMinutes a, Order.getDeliveryTimeInMinutes b with
       | Some ma, Some mb => Some (inject_Z (ma - mb))
       | _, _ => None
       end.

Definition orderAfter (a b : Order.t) : bool :=
  match compareOrders a b with
  | Some c => JS.gtb c 0
  | None => false
  end.

Definition sortOrders (orders : list Order.t) : list Order.t :=
  JS.sort orderAfter orders.

(** The two variables of the search for the best driver. *)
Record Best := { bestDriverIndex : Z; bestScore : Q }.

(** One turn of [for (let i = 0; i < assignments.length; i++)]. *)
Definition tryDriver (maxHoursPerDriver : Q) (o : Order.t) (route : Route.t)
    (best : Best) (i : Z) (a : Assignment) : Best :=
  let orderTime := calculateOrderTime route (isFatigued a) in
  if JS.gtb (totalHours a + inject_Z orderTime / 60) maxHoursPerDriver then best
  else
    let score := calculateAssignmentScore a o route in
    if JS.gtb score (bestScore best)
    then {| bestDriverIndex := i; bestScore := score |}
    else best.

Fixpoint findBestDriver (maxHoursPerDriver : Q) (o : Order.t) (route : Route.t)
    (i : Z) (rest : list Assignment) (best : Best) : Best :=
  match rest with
  | [] => best
  | a :: rest' =>
      findBestDriver maxHoursPerDriver o route (i + 1)%Z rest'
        (tryDriver maxHoursPerDriver o route best i a)
  end.

(** [assignment.assignedOrders.push({...}); assignment.totalHours += orderTime / 60]. *)
Definition commitOrder (o : Order.t) (route : Route.t) (a : Assignment) : Assignment :=
  let orderTime := calculateOrderTime route (isFatigued a) in
  {| driverId := driverId a;
     driverName := driverName a;
     assignedOrders :=
       assignedOrders a ++
         [{| order := o;
             estimatedTime := orderTime;
             isLate := isOrderLate o route (isFatigued a) |}];
     totalHours := totalHours a + inject_Z orderTime / 60;
     isFatigued := isFatigued a |}.

(** The body of [for (const order of sortedOrders)]. *)
Definition assignOrder (routeMap : gmap Z Route.t) (maxHoursPerDriver : Q)
    (assignments : list Assignment) (o : Order.t) : list Assignment :=
  match routeMap !! Order.routeId o with
  | None => assignments
  | Some route =>
      let best :=
        findBestDriver maxHoursPerDriver o route 0%Z assignments
          {| bestDriverIndex := (-1)%Z; bestScore := - (1) |} in
      if (bestDriverIndex best =? -1)%Z then assignments
      else alter (commitOrder o route) (Z.to_nat (bestDriverIndex best)) assignments
  end.

(** The objects the planner is handed, as its caller sees them. *)
Record Store := {
  st_drivers : list Driver.t;
  st_orders : list Order.t;
  st_routeMap : gmap Z Route.t
}.

(** Returns the assignments and the store after the call: [orders.sort]
    sorts the caller's array in place, the drivers and the route map are
    only read. *)
Definition optimizeOrderAssignment (s : Store) (startTime : string)
    (maxHoursPerDriver : Q) : list Assignment * Store :=
  let assignments := List.map newAssignment (st_drivers s) in
  let sortedOrders := sortOrders (st_orders s) in
  let startTimeMinutes := timeToMinutes startTime in
  let maxMinutes := maxHoursPerDriver * 60 in
  (fold_left (assignOrder (st_routeMap s) maxHoursPerDriver) sortedOrders assignments,
   {| st_drivers := st_drivers s;
      st_orders := sortedOrders;
      st_routeMap := st_routeMap s |}).

(** *** calculateKPIs *)

Record FuelCostBreakdown (N : Type) := {
  lowTraffic : N;
  mediumTraffic : N;
  highTraffic : N
}.
Arguments lowTraffic {N} _.
Arguments mediumTraffic {N} _.
Arguments highTraffic {N} _.

(** The local variables of [calculateKPIs]. *)
Record Running := {
  run_totalProfit : Q;
  run_totalFuelCost : Q;
  run_onTimeDeliveries : Z;
  run_lateDeliveries : Z;
  run_totalDeliveries : Z;
  run_fuelCostBreakdown : FuelCostBreakdown Q
}.

Definition startRunning : Running :=
  {| run_totalProfit := 0;
     run_totalFuelCost := 0;
     run_onTimeDeliveries := 0;
     run_lateDeliveries := 0;
     run_totalDeliveries := 0;
     run_fuelCostBreakdown :=
       {| lowTraffic := 0; mediumTraffic := 0; highTraffic := 0 |} |}.

(** [fuelCostBreakdown[route.trafficLevel.toLowerCase() + 'Traffic'] += fuelCost]. *)
Definition addFuelCost (l : TrafficLevel) (fuelCost : Q)
    (b : FuelCostBreakdown Q) : FuelCostBreakdown Q :=
  match l with
  | Low =>
      {| lowTraffic := lowTraffic b + fuelCost;
         mediumTraffic := mediumTraffic b;
         highTraffic := highTraffic b |}
  | Medium =>
      {| lowTraffic := lowTraffic b;
         mediumTraffic := mediumTraffic b + fuelCost;
         highTraffic := highTraffic b |}
  | High =>
      {| lowTraffic := lowTraffic b;
         mediumTraffic := mediumTraffic b;
         highTraffic := highTraffic b + fuelCost |}
  end.

(** The profit of one order before the floor at 0. *)
Definition orderProfit (ao : AssignedOrder) (route : Route.t) : Q :=
  let valueRs := Order.valueRs (order ao) in
  let orderProfit := valueRs in
  let orderProfit :=
    if isLate ao then orderProfit - LATE_DELIVERY_PENALTY
    else if JS.gtb valueRs 1000
         then orderProfit + valueRs * HIGH_VALUE_BONUS_RATE
         else orderProfit in
  orderProfit - calculateFuelCost route.

(** The body of [for (const order of assignment.assignedOrders)]. *)
Definition countOrder (routeMap : gmap Z Route.t) (run : Running)
    (ao : AssignedOrder) : Running :=
  match routeMap !! Order.routeId (order ao) with
  | None => run
  | Some route =>
      let fuelCost := calculateFuelCost route in
      {| run_totalProfit := run_totalProfit run + JS.max 0 (orderProfit ao route);
         run_totalFuelCost := run_totalFuelCost run + fuelCost;
         run_onTimeDeliveries :=
           if isLate ao then run_onTimeDeliveries run
           else (run_onTimeDeliveries run + 1)%Z;
         run_lateDeliveries :=
           if isLate ao then (run_lateDeliveries run + 1)%Z
           else run_lateDeliveries run;
         run_totalDeliveries := (run_totalDeliveries run + 1)%Z;
         run_fuelCostBreakdown :=
           addFuelCost (Route.trafficLevel route) fuelCost
             (run_fuelCostBreakdown run) |}
  end.

(** The body of [for (const assignment of assignments)]. *)
Definition countAssignment (routeMap : gmap Z Route.t) (run : Running)
    (a : Assignment) : Running :=
  fold_left (countOrder routeMap) (assignedOrders a) run.

Record Results := {
  totalProfit : Z;
  efficiencyScore : Q;
  onTimeDeliveries : Z;
  lateDeliveries : Z;
  totalDeliveries : Z;
  totalFuelCost : Z;
  fuelCostBreakdown : FuelCostBreakdown Z
}.

(** [totalDeliveries > 0 ? (onTimeDeliveries / totalDeliveries) * 100 : 0]. *)
Definition efficiencyRatio (onTimeDeliveries totalDeliveries : Z) : Q :=
  if (0 <? totalDeliveries)%Z
  then inject_Z onTimeDeliveries / inject_Z totalDeliveries * 100
  else 0.

Definition report (run : Running) : Results :=
  let efficiencyScore :=
    efficiencyRatio (run_onTimeDeliveries run) (run_totalDeliveries run) in
  {| totalProfit := JS.round (run_totalProfit run);
     efficiencyScore := inject_Z (JS.round (efficiencyScore * 100)) / 100;
     onTimeDeliveries := run_onTimeDeliveries run;
     lateDeliveries := run_lateDeliveries run;
     totalDeliveries := run_totalDeliveries run;
     totalFuelCost := JS.round (run_totalFuelCost run);
     fuelCostBreakdown :=
       {| lowTraffic := JS.round (lowTraffic (run_fuelCostBreakdown run));
          mediumTraffic := JS.round (mediumTraffic (run_fuelCostBreakdown run));
          highTraffic := JS.round (highTraffic (run_fuelCostBreakdown run)) |} |}.

Definition calculateKPIs (assignments : list Assignment)
    (routeMap : gmap Z Route.t) : Results :=
  report (fold_left (countAssignment routeMap) assignments startRunning).

(** *** runSimulation *)

(** The collections of the database when the run reads them. *)
Record Database := {
  db_drivers : list Driver.t;
  db_orders : list Order.t;
  db_routes : list Route.t
}.

Record Inputs := {
  numberOfDrivers : nat;
  startTime : string;
  maxHoursPerDriver : Q
}.

(** [sort({ fatigueLevel: 1, currentDayHours: 1 })]. *)
Definition driverAfter (a b : Driver.t) : bool :=
  JS.gtb (Driver.fatigueLevel a) (Driver.fatigueLevel b)
  || (Qeq_bool (Driver.fatigueLevel a) (Driver.fatigueLevel b)
      && JS.gtb (Driver.currentDayHours a) (Driver.currentDayHours b)).

(** [limit(n)]; a limit of 0 is no limit. *)
Definition limit {A : Type} (n : nat) (l : list A) : list A :=
  match n with
  | O => l
  | _ => firstn n l
  end.

(** [Driver.find({ isAvailable: true }).limit(n).sort({...})]: the query
    sorts before it cuts. *)
Definition findAvailableDrivers (db : Database) (n : nat) : list Driver.t :=
  limit n (JS.sort driverAfter (List.filter Driver.isAvailable (db_drivers db))).

(** [Order.find({ status: 'pending' })]. *)
Definition isPending (o : Order.t) : bool :=
  match Order.status o with
  | pending => true
  | _ => false
  end.

(** [routes.forEach(route => routeMap.set(route.routeId, route))]. *)
Definition buildRouteMap (routes : list Route.t) : gmap Z Route.t :=
  fold_left (fun m route => <[Route.routeId route := route]> m) routes ∅.

(** [new Error(`Only ${available} drivers available, but ${requested} requested`)]. *)
Inductive Error :=
| OnlyDriversAvailable (available requested : nat).

Definition runSimulation (db : Database) (inputs : Inputs)
    : Error + (list Assignment * Results) :=
  let drivers := findAvailableDrivers db (numberOfDrivers inputs) in
  if (length drivers <? numberOfDrivers inputs)%nat
  then inl (OnlyDriversAvailable (length drivers) (numberOfDrivers inputs))
  else
    let orders := List.filter isPending (db_orders db) in
    let routeMap := buildRouteMap (db_routes db) in
    let assignments :=
      fst (optimizeOrderAssignment
             {| st_drivers := drivers; st_orders := orders; st_routeMap := routeMap |}
             (startTime inputs) (maxHoursPerDriver inputs)) in
    let results := calculateKPIs assignments routeMap in
    inr (assignments, results).

End SimulationEngine.

(** ** The specification's formulas

    Second definitions, written from the words of the specification, to be
    compared with the functions of the engine. *)

Module Spec.

Local Open Scope Q_scope.

Definition fatigueFactor (fatigued : bool) : Q :=
  if fatigued then 13 # 10 else 1.

(** [ceil(baseTimeMin × trafficMultiplier(trafficLevel) × (1.3 if fatigued else 1.0))]. *)
Definition executionTime (route : Route.t) (fatigued : bool) : Z :=
  JS.ceil (Route.baseTimeMin route
           * Route.trafficMultiplier (Route.trafficLevel route)
           * fatigueFactor fatigued).

(** [distanceKm×5 + (distanceKm×2 if High else 0)]. *)
Definition fuelCost (route : Route.t) : Q :=
  Route.distanceKm route * 5
  + match Route.trafficLevel route with
    | High => Route.distanceKm route * 2
    | _ => 0
    end.

(** [max(0, valueRs − (50 if late) + (0.1 × valueRs if on time and
    valueRs > 1000) − fuelCost(route))]. *)
Definition contribution (ao : SimulationEngine.AssignedOrder)
    (route : Route.t) : Q :=
  let valueRs := Order.valueRs (SimulationEngine.order ao) in
  Qmax 0
    (valueRs
     - (if SimulationEngine.isLate ao then 50 else 0)
     + (if negb (SimulationEngine.isLate ao) && JS.gtb valueRs 1000
        then (1 # 10) * valueRs else 0)
     - fuelCost route).

(** All committed orders of a plan, driver after driver. *)
Definition committed (assignments : list SimulationEngine.Assignment)
    : list SimulationEngine.AssignedOrder :=
  flat_map SimulationEngine.assignedOrders assignments.

(** The contributions of the orders whose route is in the lookup. *)
Definition contributionsOf (routeMap : gmap Z Route.t)
    (l : list SimulationEngine.AssignedOrder) : list Q :=
  flat_map
    (fun ao =>
       match routeMap !! Order.routeId (SimulationEngine.order ao) with
       | Some route => [contribution ao route]
       | None => []
       end) l.

Definition contributions (assignments : list SimulationEngine.Assignment)
    (routeMap : gmap Z Route.t) : list Q :=
  contributionsOf routeMap (committed assignments).

Definition sum (l : list Q) : Q := fold_right Qplus 0 l.

Definition totalProfit (assignments : list SimulationEngine.Assignment)
    (routeMap : gmap Z Route.t) : Z :=
  JS.round (sum (contributions assignments routeMap)).


End Spec.

(** ** Invariants of the loops *)

Module Invariant.

Import SimulationEngine.
Local Open Scope Q_scope.

(** The counters: on time plus late is the total, and no counter is negative. *)
Definition counters_ok (run : Running) : Prop :=
  (run_onTimeDeliveries run + run_lateDeliveries run = run_totalDeliveries run
   /\ 0 <= run_onTimeDeliveries run /\ 0 <= run_lateDeliveries run)%Z.

(** The three buckets add up to the running fuel total. *)
Definition buckets_ok (run : Running) : Prop :=
  lowTraffic (run_fuelCostBreakdown run)
  + mediumTraffic (run_fuelCostBreakdown run)
  + highTraffic (run_fuelCostBreakdown run)
  == run_totalFuelCost run.

(** A driver passes the capacity check for an order on [route]. *)
Definition fits (maxHoursPerDriver : Q) (route : Route.t) (a : Assignment) : Prop :=
  totalHours a + inject_Z (calculateOrderTime route (isFatigued a)) / 60
  <= maxHoursPerDriver.

(** The hours of an assignment stay within a bound. *)
Definition within (bound : Q) (a : Assignment) : Prop :=
  totalHours a <= bound.

(** An assignment is the one of a given driver. *)
Definition of_driver (d : Driver.t) (a : Assignment) : Prop :=
  driverId a = Driver._id d
  /\ driverName a = Driver.name d
  /\ isFatigued a = Driver.isFatigued d.

(** An order is among the committed orders of an assignment. *)
Definition carries (o : Order.t) (a : Assignment) : Prop :=
  exists ao, In ao (assignedOrders a) /\ order ao = o.

(** The search for the best driver starts from the pair [(-1, -1)]. *)
Definition noBest : Best := {| bestDriverIndex := (-1)%Z; bestScore := - (1) |}.

End Invariant.

(** ** Sample inputs *)

Module Sample.

Local Open Scope Q_scope.

Definition route (id : Z) (km : Q) (l : TrafficLevel) (base : Q) : Route.t :=
  {| Route.routeId := id; Route.distanceKm := km;
     Route.trafficLevel := l; Route.baseTimeMin := base |}.

Definition order (id : Z) (value : Q) (rid : Z) (t : string) : Order.t :=
  {| Order.orderId := id; Order.valueRs := value; Order.routeId := rid;
     Order.deliveryTime := t; Order.status := pending |}.

Definition driver (id : Z) (nm : string) (yesterday : Q) : Driver.t :=
  {| Driver._id := id; Driver.name := nm; Driver.shiftHours := 8;
     Driver.pastWeekHours := [6; 6; 6; 6; 6; 6; yesterday];
     Driver.isAvailable := true; Driver.currentDayHours := 0;
     Driver.fatigueLevel := 0 |}.

Definition assignment (fatigued : bool) (hours : Q) : SimulationEngine.Assignment :=
  {| SimulationEngine.driverId := 1;
     SimulationEngine.driverName := "A";
     SimulationEngine.assignedOrders := [];
     SimulationEngine.totalHours := hours;
     SimulationEngine.isFatigued := fatigued |}.

(** One rested driver, one order of value 500 on a Medium route of base
    time 60 (72 minutes, late by the 10-minute buffer). *)
Definition lateStore : SimulationEngine.Store :=
  {| SimulationEngine.st_drivers := [driver 1 "A" 6];
     SimulationEngine.st_orders := [order 1 500 1 "10:00"];
     SimulationEngine.st_routeMap := {[ 1%Z := route 1 10 Medium 60 ]} |}.

(** The same with two orders, the cheaper one first in the array. *)
Definition twoOrders : SimulationEngine.Store :=
  {| SimulationEngine.st_drivers := [driver 1 "A" 6];
     SimulationEngine.st_orders := [order 1 100 1 "10:00"; order 2 200 1 "09:00"];
     SimulationEngine.st_routeMap := {[ 1%Z := route 1 10 Medium 60 ]} |}.

(** A rested and a fatigued driver; three pending orders, two of them of
    equal value, on a Low and a High route. *)
Definition fleet : SimulationEngine.Database :=
  {| SimulationEngine.db_drivers := [driver 1 "A" 6; driver 2 "B" 9];
     SimulationEngine.db_orders :=
       [order 2 500 2 "10:00"; order 1 1500 1 "11:00"; order 3 500 1 "09:00"];
     SimulationEngine.db_routes := [route 1 10 Low 30; route 2 20 High 60] |}.

Definition shift : SimulationEngine.Inputs :=
  {| SimulationEngine.numberOfDrivers := 2;
     SimulationEngine.startTime := "09:00";
     SimulationEngine.maxHoursPerDriver := 8 |}.

End Sample.

(** ** More of the JavaScript library

    A string is a sequence of code units below 256. *)

Module JSLib.

(** [n.toString()] for a whole number (below [10^21] in absolute value,
    where JavaScript turns to the exponent notation). *)
Definition toString (n : Z) : string := NilZero.string_of_int (Z.to_int n).

(** [s.padStart(n, c)] for a pad of one character. *)
Definition padStart (n : nat) (c : ascii) (s : string) : string :=
  String.append (string_of_list_ascii (List.repeat c (n - String.length s))) s.

(** White space and line terminators: TAB, LF, VT, FF, CR, SP, NBSP. *)
Definition isWhiteSpace (c : ascii) : bool :=
  let n := nat_of_ascii c in
  ((9 <=? n) && (n <=? 13) || (n =? 32) || (n =? 160))%nat.

Fixpoint trimStart (s : string) : string :=
  match s with
  | EmptyString => EmptyString
  | String c s' => if isWhiteSpace c then trimStart s' else s
  end.

Fixpoint trimEnd (s : string) : string :=
  match s with
  | EmptyString => EmptyString
  | String c s' =>
      match trimEnd s' with
      | EmptyString => if isWhiteSpace c then EmptyString else String c EmptyString
      | rest => String c rest
      end
  end.

(** [s.trim()]. *)
Definition trim (s : string) : string := trimEnd (trimStart s).

(** [s.split(sep)] for a separator of one character. *)
Fixpoint split (sep : ascii) (s : string) : list string :=
  match s with
  | EmptyString => [EmptyString]
  | String c s' =>
      let rest := split sep s' in
      if Ascii.eqb c sep then EmptyString :: rest
      else match rest with
           | h :: t => String c h :: t
           | [] => [String c EmptyString]
           end
  end.

(** [s.startsWith(c)] for one character. *)
Definition startsWith (c : ascii) (s : string) : bool :=
  match s with
  | String c' _ => Ascii.eqb c' c
  | EmptyString => false
  end.

(** [s.includes(sub)]. *)
Fixpoint includes (sub s : string) : bool :=
  String.prefix sub s
  || match s with
     | EmptyString => false
     | String _ s' => includes sub s'
     end.

(** [s.substring(1)]. *)
Definition substring1 (s : string) : string :=
  match s with
  | EmptyString => EmptyString
  | String _ s' => s'
  end.

(** A string in a condition: the empty string is false. *)
Definition truthy (s : string) : bool :=
  match s with
  | EmptyString => false
  | _ => true
  end.

(** The value of a digit in a radix: [0-9], then [a-z] or [A-Z] from 10. *)
Definition digitIn (radix : Z) (c : ascii) : option Z :=
  let n := Z.of_nat (nat_of_ascii c) in
  let v :=
    if (48 <=? n) && (n <=? 57) then Some (n - 48)
    else if (97 <=? n) && (n <=? 122) then Some (n - 87)
    else if (65 <=? n) && (n <=? 90) then Some (n - 55)
    else None in
  match v with
  | Some d => if d <? radix then Some d else None
  | None => None
  end.

(** The longest prefix of digits; [None] when it is empty. *)
Fixpoint digitsPrefix (radix : Z) (acc : option Z) (s : string) : option Z :=
  match s with
  | EmptyString => acc
  | String c s' =>
      match digitIn radix c with
      | Some d =>
          digitsPrefix radix
            (Some (radix * match acc with Some a => a | None => 0 end + d)) s'
      | None => acc
      end
  end.

(** [parseInt(s)] with no radix: leading white space, a sign, [0x] or [0X]
    for radix 16, then the longest prefix of digits; [None] is [NaN]. *)
Definition parseInt (s : string) : option Z :=
  let s := trimStart s in
  let '(negative, s) :=
    match s with
    | String "-" s' => (true, s')
    | String "+" s' => (false, s')
    | _ => (false, s)
    end in
  let '(radix, s) :=
    match s with
    | String "0" (String "x" s') => (16, s')
    | String "0" (String "X" s') => (16, s')
    | _ => (10, s)
    end in
  match digitsPrefix radix None s with
  | Some n => Some (if negative : bool then - n else n)
  | None => None
  end.

(** [x || d] on a number: [NaN] and 0 are false. *)
Definition orDefault (x : option Z) (d : Z) : Z :=
  match x with
  | Some 0 | None => d
  | Some n => n
  end.

End JSLib.

(** ** The time validator of the schemas and of the request validation

    [/^([0-1]?[0-9]|2[0-3]):[0-5][0-9]$/], on the characters of the string. *)

Module TimeFormat.

Definition between (lo hi c : ascii) : bool :=
  ((nat_of_ascii lo <=? nat_of_ascii c) && (nat_of_ascii c <=? nat_of_ascii hi))%nat.

Definition minutesPart (m1 m2 : ascii) : bool :=
  between "0" "5" m1 && between "0" "9" m2.

Definition test (time : string) : bool :=
  match list_ascii_of_string time with
  | [h; c; m1; m2] =>
      between "0" "9" h && Ascii.eqb c ":" && minutesPart m1 m2
  | [h1; h2; c; m1; m2] =>
      (between "0" "1" h1 && between "0" "9" h2
       || Ascii.eqb h1 "2" && between "0" "3" h2)
      && Ascii.eqb c ":" && minutesPart m1 m2
  | _ => false
  end.

End TimeFormat.

(** ** utils/simulationEngine.js: minutesToTime *)

Module Clock.

(** On a whole number of minutes. *)
Definition minutesToTime (minutes : Z) : string :=
  let hours := minutes / 60 in
  let mins := Z.rem minutes 60 in
  String.append (JSLib.padStart 2 "0" (JSLib.toString hours))
    (String ":" (JSLib.padStart 2 "0" (JSLib.toString mins))).

End Clock.

(** ** The methods of the models that the engine does not call *)

Module RouteModel.

Local Open Scope Q_scope.

(** [routeSchema.methods.calculateFuelCost]. *)
Definition calculateFuelCost (r : Route.t) : Q :=
  let baseCost := Route.distanceKm r * 5 in
  let surcharge :=
    match Route.trafficLevel r with
    | High => Route.distanceKm r * 2
    | _ => 0
    end in
  baseCost + surcharge.

End RouteModel.

Module OrderModel.

Local Open Scope Q_scope.

(** An order document with the stored fields that [calculateProfit] reads. *)
Record Stored := {
  fields : Order.t;
  isLate : bool;
  penalty : Q;
  bonus : Q
}.

Definition isHighValue (o : Stored) : bool :=
  JS.gtb (Order.valueRs (fields o)) 1000.

(** [route] is [None] when the caller passes no route. *)
Definition calculateProfit (o : Stored) (route : option Route.t) : Q :=
  let profit := Order.valueRs (fields o) in
  let profit :=
    if isHighValue o && negb (isLate o)
    then profit + Order.valueRs (fields o) * (1 # 10)
    else profit in
  let profit := profit - penalty o in
  let profit :=
    match route with
    | Some r => profit - RouteModel.calculateFuelCost r
    | None => profit
    end in
  JS.max 0 profit.

End OrderModel.

Module DriverModel.

Local Open Scope Q_scope.

(** [pastWeekHours.reduce((sum, hours) => sum + hours, 0) / 7]. *)
Definition getWeeklyAverage (d : Driver.t) : Q :=
  let total := fold_left Qplus (Driver.pastWeekHours d) 0 in
  total / 7.

End DriverModel.

Module SimulationModel.

Local Open Scope Q_scope.

(** [simulationSchema.methods.getTotalFuelCost], on the stored breakdown. *)
Definition getTotalFuelCost (breakdown : SimulationEngine.FuelCostBreakdown Z) : Z :=
  (SimulationEngine.lowTraffic breakdown
   + SimulationEngine.mediumTraffic breakdown
   + SimulationEngine.highTraffic breakdown)%Z.

(** The bounds the schema puts on the stored results: [efficiencyScore]
    between 0 and 100, the three counts at least 0. *)
Definition resultsValid (r : SimulationEngine.Results) : Prop :=
  0 <= SimulationEngine.efficiencyScore r
  /\ SimulationEngine.efficiencyScore r <= 100
  /\ (0 <= SimulationEngine.onTimeDeliveries r)%Z
  /\ (0 <= SimulationEngine.lateDeliveries r)%Z
  /\ (0 <= SimulationEngine.totalDeliveries r)%Z.

End SimulationModel.

(** ** utils/dataSeeder.js *)

Module DataSeeder.

Definition newline : ascii := "010"%char.

(** The lines that [parsePipeCsv] passes over. *)
Definition skipped (line : string) : bool :=
  negb (JSLib.startsWith "|" line)
  || JSLib.includes "name,shift_hours" line
  || JSLib.includes "order_id,value_rs" line
  || JSLib.includes "route_id,distance_km" line.

Definition parsePipeCsv (csvData : string) : list (list string) :=
  let lines := JSLib.split newline (JSLib.trim csvData) in
  flat_map
    (fun line =>
       if skipped line then []
       else
         let parts := JSLib.split "|" (JSLib.substring1 line) in
         if (1 <? length parts)%nat then [parts] else [])
    lines.

(** An entry of [driversToInsert]. *)
Record DriverData := {
  name : string;
  shiftHours : Z;
  pastWeekHours : list Z;
  isAvailable : bool;
  currentDayHours : Z;
  fatigueLevel : Z
}.

(** The body of the loop of [seedDrivers]: the entries pushed for one row. *)
Definition driversOfRow (row : list string) : list DriverData :=
  match row with
  | name :: hours :: pastWeekData :: _ =>
      match JSLib.parseInt hours with
      | Some shiftHours =>
          if JSLib.truthy name && JSLib.truthy pastWeekData then
            let pastWeekHours := omap JSLib.parseInt (JSLib.split "|" pastWeekData) in
            if (length pastWeekHours =? 7)%nat then
              [{| name := name;
                  shiftHours := shiftHours;
                  pastWeekHours := pastWeekHours;
                  isAvailable := true;
                  currentDayHours := 0;
                  fatigueLevel := if 8 <? List.last pastWeekHours 0 then 30 else 0 |}]
            else []
          else []
      | None => []
      end
  | _ => []
  end.

(** The array that [seedDrivers] hands to [Driver.insertMany]. *)
Definition driversToInsert (csvData : string) : list DriverData :=
  flat_map driversOfRow (parsePipeCsv csvData).

(** An entry of [routesToInsert]; the traffic level is the text of the file. *)
Record RouteData := {
  routeId : Z;
  distanceKm : Z;
  trafficLevel : string;
  baseTimeMin : Z
}.

Definition routesOfRow (row : list string) : list RouteData :=
  match row with
  | r0 :: r1 :: trafficLevel :: r3 :: _ =>
      match JSLib.parseInt r0, JSLib.parseInt r1, JSLib.parseInt r3 with
      | Some routeId, Some distanceKm, Some baseTimeMin =>
          if JSLib.truthy trafficLevel then
            [{| routeId := routeId;
                distanceKm := distanceKm;
                trafficLevel := trafficLevel;
                baseTimeMin := baseTimeMin |}]
          else []
      | _, _, _ => []
      end
  | _ => []
  end.

(** The array that [seedRoutes] hands to [Route.insertMany]. *)
Definition routesToInsert (csvData : string) : list RouteData :=
  flat_map routesOfRow (parsePipeCsv csvData).

(** An entry of [ordersToInsert]; the status is ['pending']. *)
Record OrderData := {
  orderId : Z;
  valueRs : Z;
  o_routeId : Z;
  deliveryTime : string
}.

Definition ordersOfRow (row : list string) : list OrderData :=
  match row with
  | r0 :: r1 :: r2 :: deliveryTime :: _ =>
      match JSLib.parseInt r0, JSLib.parseInt r1, JSLib.parseInt r2 with
      | Some orderId, Some valueRs, Some routeId =>
          if JSLib.truthy deliveryTime then
            [{| orderId := orderId;
                valueRs := valueRs;
                o_routeId := routeId;
                deliveryTime := deliveryTime |}]
          else []
      | _, _, _ => []
      end
  | _ => []
  end.

(** The array that [seedOrders] hands to [Order.insertMany]. *)
Definition ordersToInsert (csvData : string) : list OrderData :=
  flat_map ordersOfRow (parsePipeCsv csvData).

End DataSeeder.

(** ** routes/simulation.js: the pages of the history *)

Module History.

Local Open Scope Z_scope.

Record Pagination := {
  currentPage : Z;
  totalPages : Z;
  totalSimulations : Z;
  hasNext : bool;
  hasPrev : bool
}.

(** [parseInt(req.query.x)]; a parameter that is absent is [undefined]. *)
Definition parseParam (x : option string) : option Z :=
  match x with
  | Some s => JSLib.parseInt s
  | None => None
  end.

Definition page (pageParam : option string) : Z :=
  JSLib.orDefault (parseParam pageParam) 1.

Definition limit (limitParam : option string) : Z :=
  JSLib.orDefault (parseParam limitParam) 10.

Definition skip (pageParam limitParam : option string) : Z :=
  (page pageParam - 1) * limit limitParam.

Definition pagination (pageParam limitParam : option string)
    (totalSimulations : Z) : Pagination :=
  let page := page pageParam in
  let limit := limit limitParam in
  let totalPages := JS.ceil (inject_Z totalSimulations / inject_Z limit) in
  {| currentPage := page;
     totalPages := totalPages;
     totalSimulations := totalSimulations;
     hasNext := page <? totalPages;
     hasPrev := 1 <? page |}.

End History.

(** ** What a plan records *)

Module PlanInvariant.

Import SimulationEngine.
Local Open Scope Q_scope.

(** The hours of a list of committed orders. *)
Definition hoursOf (l : list AssignedOrder) : Q :=
  fold_right (fun ao acc => inject_Z (estimatedTime ao) / 60 + acc) 0 l.

(** A committed order carries the time and the lateness of its route for
    the driver's fatigue flag. *)
Definition annotated (routeMap : gmap Z Route.t) (fatigued : bool)
    (ao : AssignedOrder) : Prop :=
  exists route,
    routeMap !! Order.routeId (order ao) = Some route
    /\ estimatedTime ao = calculateOrderTime route fatigued
    /\ isLate ao = isOrderLate (order ao) route fatigued.

Definition consistent (routeMap : gmap Z Route.t) (a : Assignment) : Prop :=
  Forall (annotated routeMap (isFatigued a)) (assignedOrders a)
  /\ totalHours a == hoursOf (assignedOrders a).

(** A number is whole. *)
Definition whole (q : Q) : Prop := exists z : Z, q == inject_Z z.

(** The three buckets of the running fuel cost are whole. *)
Definition buckets_whole (run : Running) : Prop :=
  whole (lowTraffic (run_fuelCostBreakdown run))
  /\ whole (mediumTraffic (run_fuelCostBreakdown run))
  /\ whole (highTraffic (run_fuelCostBreakdown run)).

(** The orders of a plan, as they were pending. *)
Definition ordersOf (assignments : list Assignment) : list Order.t :=
  List.map order (Spec.committed assignments).

End PlanInvariant.

(** ** Occurrences of a character, and the table of the valid times *)

Module Text.

(** A character occurs in a string. *)
Fixpoint occurs (c : ascii) (s : string) : bool :=
  match s with
  | EmptyString => false
  | String c' s' => Ascii.eqb c' c || occurs c s'
  end.

(** The characters from [lo] to [hi]. *)
Definition chars (lo hi : ascii) : list ascii :=
  List.map ascii_of_nat
    (seq (nat_of_ascii lo) (S (nat_of_ascii hi) - nat_of_ascii lo)).

Definition minutesParts : list string :=
  flat_map
    (fun m1 => List.map (fun m2 => String ":" (String m1 (String m2 EmptyString)))
                 (chars "0" "9"))
    (chars "0" "5").

(** The strings that the time validator accepts. *)
Definition validTimes : list string :=
  flat_map (fun h => List.map (String h) minutesParts) (chars "0" "9")
  ++ flat_map
       (fun h1 =>
          flat_map (fun h2 => List.map (fun t => String h1 (String h2 t)) minutesParts)
            (chars "0" "9"))
       (chars "0" "1")
  ++ flat_map (fun h2 => List.map (fun t => String "2" (String h2 t)) minutesParts)
       (chars "0" "3").

(** A valid time converts to a minute of the day, and back to itself with
    the hour written with two digits. *)
Definition roundTrips (time : string) : bool :=
  match SimulationEngine.timeToMinutes time with
  | Some m =>
      (0 <=? m) && (m <? 1440)
      && String.eqb (Clock.minutesToTime m)
           (if (String.length time =? 5)%nat then time else String "0" time)
  | None => false
  end.

End Text.

(** ** More sample inputs *)

Module MoreSamples.

Local Open Scope Q_scope.

Definition lines (l : list string) : string :=
  String.concat (String DataSeeder.newline EmptyString) l.

(** A drivers file: a header and two drivers with their seven days. *)
Definition driversCsv : string :=
  lines ["|name,shift_hours,past_week_hours"; "|Amit|6|6|8|7|7|7|6|10";
         "|Priya|6|10|9|6|6|6|7|7"]%string.

(** A routes file. *)
Definition routesCsv : string :=
  lines ["|route_id,distance_km,traffic_level,base_time_min"; "|1|25|High|125";
         "|2|12|Low|48"]%string.

(** One rested driver; an order on route 1 and an order on a route that is
    not in the lookup. *)
Definition dangling : SimulationEngine.Store :=
  {| SimulationEngine.st_drivers := [Sample.driver 1 "A" 6];
     SimulationEngine.st_orders :=
       [Sample.order 1 500 1 "10:00"; Sample.order 2 900 9 "11:00"];
     SimulationEngine.st_routeMap := {[ 1%Z := Sample.route 1 10 Low 30 ]} |}.

End MoreSamples.

Import SimulationEngine Invariant PlanInvariant.

(** * Properties *)

(** ** The engine's unit tests, replayed on the model *)

Example timeToMinutes_0900 : timeToMinutes "09:00" = Some 540.
Proof. reflexivity. Qed.
Example timeToMinutes_1230 : timeToMinutes "12:30" = Some 750.
Proof. reflexivity. Qed.
Example timeToMinutes_2359 : timeToMinutes "23:59" = Some 1439.
Proof. reflexivity. Qed.
Example round_half_up : JS.round (5 # 2) = 3 /\ JS.round (- (5 # 2)) = -2.
Proof. split; reflexivity. Qed.

Example fuelCost_low : (calculateFuelCost (Sample.route 1 10 Low 30) == 50)%Q.
Proof. reflexivity. Qed.
Example fuelCost_high : (calculateFuelCost (Sample.route 1 10 High 30) == 70)%Q.
Proof. reflexivity. Qed.
Example fuelCost_medium : (calculateFuelCost (Sample.route 1 15 Medium 30) == 75)%Q.
Proof. reflexivity. Qed.

Example orderTime_rested : calculateOrderTime (Sample.route 1 10 Low 60) false = 60.
Proof. reflexivity. Qed.
Example orderTime_fatigued : calculateOrderTime (Sample.route 1 10 Low 60) true = 78.
Proof. reflexivity. Qed.
Example late_medium_60 :
  calculateOrderTime (Sample.route 1 10 Medium 60) false = 72
  /\ isOrderLate (Sample.order 1 500 1 "10:00") (Sample.route 1 10 Medium 60) false = true.
Proof. split; reflexivity. Qed.

Example score_high_value :
  (calculateAssignmentScore (Sample.assignment false 2)
     (Sample.order 1 1500 1 "10:00") (Sample.route 1 10 Low 30) == 116)%Q.
Proof. reflexivity. Qed.
Example score_fatigued :
  (calculateAssignmentScore (Sample.assignment true 0)
     (Sample.order 1 500 1 "10:00") (Sample.route 1 10 Low 30) == 70)%Q.
Proof. reflexivity. Qed.
Example score_high_traffic :
  (calculateAssignmentScore (Sample.assignment false 0)
     (Sample.order 1 500 1 "10:00") (Sample.route 1 10 High 30) == 90)%Q.
Proof. reflexivity. Qed.

(** ** Numbers *)

Section Numbers.

Local Open Scope Q_scope.

Lemma gtb_true (x y : Q) : JS.gtb x y = true <-> y < x.
Proof.
  unfold JS.gtb. rewrite negb_true_iff, <- not_true_iff_false, Qle_bool_iff.
  split; [apply Qnot_le_lt | apply Qlt_not_le].
Qed.

Lemma gtb_false (x y : Q) : JS.gtb x y = false <-> x <= y.
Proof.
  unfold JS.gtb. rewrite negb_false_iff. apply Qle_bool_iff.
Qed.

Lemma inject_Z_minus (x y : Z) : inject_Z (x - y) = inject_Z x - inject_Z y.
Proof.
  unfold Z.sub. rewrite inject_Z_plus, inject_Z_opp. reflexivity.
Qed.

Lemma ceil_of_integer (z : Z) : JS.ceil (inject_Z z) = z.
Proof. apply Qceiling_Z. Qed.

Lemma ceil_monotone (x y : Q) : x <= y -> (JS.ceil x <= JS.ceil y)%Z.
Proof. apply Qceiling_resp_le. Qed.

Lemma round_eq (x y : Q) : x == y -> JS.round x = JS.round y.
Proof. intros E. unfold JS.round. now rewrite E. Qed.

(** [Math.round x] is within a half of [x]: [x - 1/2 < round x <= x + 1/2]. *)
Lemma round_bounds (x : Q) :
  x - (1 # 2) < inject_Z (JS.round x) /\ inject_Z (JS.round x) <= x + (1 # 2).
Proof.
  unfold JS.round. split.
  - pose proof (Qlt_floor (x + (1 # 2))) as H.
    rewrite inject_Z_plus in H. change (inject_Z 1) with 1 in H. lra.
  - apply Qfloor_le.
Qed.

Lemma round_of_integer (z : Z) : JS.round (inject_Z z) = z.
Proof.
  pose proof (round_bounds (inject_Z z)) as [L U].
  assert (z - 1 < JS.round (inject_Z z))%Z as L'.
  { rewrite Zlt_Qlt, inject_Z_minus. change (inject_Z 1) with 1. lra. }
  assert (JS.round (inject_Z z) < z + 1)%Z as U'.
  { rewrite Zlt_Qlt, inject_Z_plus. change (inject_Z 1) with 1. lra. }
  lia.
Qed.


End Numbers.

(** ** TimingModel *)

Section Timing.

Local Open Scope Q_scope.

(** The engine rounds twice: the route's expected time is already a whole
    number of minutes when the fatigue factor is applied. *)
Lemma calculateOrderTime_unfold (route : Route.t) (fatigued : bool) :
  calculateOrderTime route fatigued
  = JS.ceil (inject_Z (Route.getExpectedTime route) * Spec.fatigueFactor fatigued).
Proof.
  unfold calculateOrderTime, Spec.fatigueFactor, FATIGUE_SPEED_REDUCTION, JS.ceil.
  destruct fatigued; apply Qceiling_comp; ring.
Qed.

Lemma fatigueFactor_pos (fatigued : bool) : 0 < Spec.fatigueFactor fatigued.
Proof. destruct fatigued; reflexivity. Qed.

(** C1, as the specification states it, fails for a fatigued driver on a
    Medium route of base time 1: the engine gives [ceil(ceil(1.2) × 1.3) = 3],
    the formula [ceil(1 × 1.2 × 1.3) = 2]. *)
Lemma executionTime_formula_fails :
  let route := Sample.route 1 10 Medium 1 in
  0 <= Route.baseTimeMin route
  /\ calculateOrderTime route true = 3%Z
  /\ Spec.executionTime route true = 2%Z
  /\ calculateOrderTime route true <> Spec.executionTime route true.
Proof. cbv zeta. repeat split; discriminate. Qed.

(** C1 (amended): the computed execution time is
    [ceil(ceil(baseTimeMin × trafficMultiplier) × (1.3 if fatigued else 1.0))],
    the multiplier being 1.0, 1.2, 1.5 for Low, Medium, High; for a driver
    who is not fatigued this is the specification's formula, and for a
    fatigued one it is never below it. *)
Theorem calculateOrderTime_formula (route : Route.t) (fatigued : bool) :
  calculateOrderTime route fatigued
  = JS.ceil (inject_Z (JS.ceil (Route.baseTimeMin route
                                * match Route.trafficLevel route with
                                  | Low => 1
                                  | Medium => 12 # 10
                                  | High => 15 # 10
                                  end))
             * (if fatigued then 13 # 10 else 1))
  /\ calculateOrderTime route false = Spec.executionTime route false
  /\ (Spec.executionTime route fatigued <= calculateOrderTime route fatigued)%Z.
Proof.
  split; [| split].
  - rewrite calculateOrderTime_unfold. unfold Route.getExpectedTime.
    destruct (Route.trafficLevel route); reflexivity.
  - rewrite calculateOrderTime_unfold. unfold Spec.executionTime, Spec.fatigueFactor.
    unfold Route.getExpectedTime.
    transitivity (JS.ceil (inject_Z (JS.ceil
      (Route.baseTimeMin route * Route.trafficMultiplier (Route.trafficLevel route))))).
    + apply Qceiling_comp. ring.
    + rewrite ceil_of_integer. apply Qceiling_comp. ring.
  - rewrite calculateOrderTime_unfold. unfold Spec.executionTime.
    apply ceil_monotone. unfold Route.getExpectedTime.
    apply Qmult_le_compat_r.
    + apply Qle_ceiling.
    + apply Qlt_le_weak, fatigueFactor_pos.
Qed.

End Timing.

(** ** KPIAggregator *)

Section Aggregator.

Local Open Scope Q_scope.

Variable routeMap : gmap Z Route.t.

(** The nested loops visit the committed orders driver after driver. *)
Lemma count_committed (assignments : list Assignment) (run : Running) :
  fold_left (countAssignment routeMap) assignments run
  = fold_left (countOrder routeMap) (Spec.committed assignments) run.
Proof.
  revert run. induction assignments as [| a rest IH]; intros run; simpl.
  - reflexivity.
  - unfold Spec.committed in *. simpl. rewrite fold_left_app. apply IH.
Qed.

(** What holds of the local variables at the start and is kept by every
    counted order holds when the loops end. *)
Lemma count_invariant (P : Running -> Prop) (assignments : list Assignment) :
  P startRunning ->
  (forall run ao, P run -> P (countOrder routeMap run ao)) ->
  P (fold_left (countAssignment routeMap) assignments startRunning).
Proof.
  intros H0 Hstep. rewrite count_committed.
  generalize (Spec.committed assignments) as l.
  generalize dependent startRunning.
  intros run Hrun l. revert run Hrun.
  induction l as [| ao l IH]; intros run Hrun; simpl; auto.
Qed.





Lemma counters_kept (run : Running) (ao : AssignedOrder) :
  counters_ok run -> counters_ok (countOrder routeMap run ao).
Proof.
  unfold counters_ok, countOrder. intros (E & Hon & Hlate).
  destruct (routeMap !! Order.routeId (order ao)); simpl; [| auto].
  destruct (isLate ao); lia.
Qed.

Lemma buckets_kept (run : Running) (ao : AssignedOrder) :
  buckets_ok run -> buckets_ok (countOrder routeMap run ao).
Proof.
  unfold buckets_ok, countOrder. intros E.
  destruct (routeMap !! Order.routeId (order ao)) as [route |]; simpl; [| auto].
  unfold addFuelCost. destruct (Route.trafficLevel route); simpl; rewrite <- E; ring.
Qed.

(** Each counted order raises the total by at most one. *)
Lemma totalDeliveries_le (l : list AssignedOrder) (run : Running) :
  (run_totalDeliveries (fold_left (countOrder routeMap) l run)
   <= run_totalDeliveries run + Z.of_nat (length l))%Z.
Proof.
  revert run. induction l as [| ao l IH]; intros run.
  - simpl. lia.
  - cbn [fold_left length]. etransitivity; [apply IH |].
    unfold countOrder.
    destruct (routeMap !! Order.routeId (order ao)); simpl run_totalDeliveries; lia.
Qed.

End Aggregator.

Section AggregatorResults.

Local Open Scope Q_scope.

Variable assignments : list Assignment.
Variable routeMap : gmap Z Route.t.

Let run := fold_left (countAssignment routeMap) assignments startRunning.

Lemma run_counters_ok : counters_ok run.
Proof.
  apply count_invariant.
  - unfold counters_ok. simpl. lia.
  - apply counters_kept.
Qed.

Lemma run_buckets_ok : buckets_ok run.
Proof.
  apply count_invariant.
  - unfold buckets_ok. simpl. reflexivity.
  - apply buckets_kept.
Qed.



End AggregatorResults.

(** ** The efficiency score *)

Section Efficiency.

Local Open Scope Q_scope.

Lemma round_monotone (x y : Q) : x <= y -> (JS.round x <= JS.round y)%Z.
Proof.
  intros H. unfold JS.round. apply Qfloor_resp_le. lra.
Qed.


Variables onTime total : Z.
Hypothesis onTime_nonneg : (0 <= onTime)%Z.
Hypothesis onTime_le_total : (onTime <= total)%Z.

Local Abbreviation ratio := (efficiencyRatio onTime total).

Lemma ratio_scaled :
  (0 < total)%Z -> ratio * inject_Z total == inject_Z onTime * 100.
Proof.
  intros Hpos. unfold efficiencyRatio.
  pose proof (proj2 (Z.ltb_lt 0 total) Hpos) as Hb. rewrite Hb.
  field. intros E. change 0 with (inject_Z 0) in E.
  rewrite inject_Z_injective in E. lia.
Qed.

Lemma ratio_range : 0 <= ratio /\ ratio <= 100.
Proof.
  destruct (Z.ltb_spec 0 total) as [Hpos | Hle].
  - pose proof (ratio_scaled Hpos) as E.
    assert (0 < inject_Z total) as T.
    { change 0 with (inject_Z 0). now rewrite <- Zlt_Qlt. }
    assert (0 <= inject_Z onTime) as A.
    { change 0 with (inject_Z 0). now rewrite <- Zle_Qle. }
    assert (inject_Z onTime <= inject_Z total) as B.
    { now rewrite <- Zle_Qle. }
    split.
    + apply Qnot_lt_le. intros N.
      assert (ratio * inject_Z total < 0) by nra. lra.
    + apply Qnot_lt_le. intros N.
      assert (100 * inject_Z total < ratio * inject_Z total) by nra. lra.
  - unfold efficiencyRatio. apply Z.ltb_ge in Hle. rewrite Hle. lra.
Qed.


(** The reported score, [Math.round(ratio * 100) / 100]. *)
Local Abbreviation score := (inject_Z (JS.round (ratio * 100)) / 100).

Lemma score_range : 0 <= score /\ score <= 100.
Proof.
  destruct ratio_range as [L U].
  assert (0 <= JS.round (ratio * 100))%Z as A.
  { rewrite <- (round_of_integer 0). apply round_monotone.
    change (inject_Z 0) with 0. lra. }
  assert (JS.round (ratio * 100) <= 10000)%Z as B.
  { rewrite <- (round_of_integer 10000). apply round_monotone.
    change (inject_Z 10000) with 10000. lra. }
  rewrite Zle_Qle in A, B.
  change (inject_Z 0) with 0 in A. change (inject_Z 10000) with 10000 in B.
  split.
  - apply Qle_shift_div_l; lra.
  - apply Qle_shift_div_r; lra.
Qed.


End Efficiency.

Section EfficiencyOfRun.

Local Open Scope Q_scope.



End EfficiencyOfRun.

(** ** Array.prototype.sort *)

Section SortFacts.

Context {A : Type} (later_first : A -> A -> bool).

Lemma sort_insert_perm (x : A) (l : list A) :
  Permutation (x :: l) (JS.sort_insert later_first x l).
Proof.
  induction l as [| y l IH]; simpl.
  - reflexivity.
  - destruct (later_first x y).
    + rewrite perm_swap. now apply perm_skip.
    + reflexivity.
Qed.

Lemma sort_perm (l : list A) : Permutation l (JS.sort later_first l).
Proof.
  induction l as [| x l IH]; simpl.
  - reflexivity.
  - rewrite <- sort_insert_perm. now apply perm_skip.
Qed.

Lemma sort_length (l : list A) : length (JS.sort later_first l) = length l.
Proof. symmetry. apply Permutation_length, sort_perm. Qed.

(** When the comparator is never positive both ways, no element of the
    result is followed by one it should come after. *)
Hypothesis later_first_asym :
  forall a b, later_first a b = true -> later_first b a = false.

Lemma sort_insert_sorted (x : A) (l : list A) :
  Sorted (fun a b => later_first a b = false) l ->
  Sorted (fun a b => later_first a b = false) (JS.sort_insert later_first x l).
Proof.
  induction l as [| y l IH]; intros Hs; simpl.
  - repeat constructor.
  - destruct (later_first x y) eqn:E.
    + apply Sorted_inv in Hs as [Hs Hd]. constructor; [now apply IH |].
      destruct l as [| z l]; simpl.
      * constructor. now apply later_first_asym.
      * destruct (later_first x z); constructor.
        -- now inversion Hd.
        -- now apply later_first_asym.
    + constructor; [exact Hs | now constructor].
Qed.

Lemma sort_sorted (l : list A) :
  Sorted (fun a b => later_first a b = false) (JS.sort later_first l).
Proof.
  induction l as [| x l IH]; simpl.
  - constructor.
  - now apply sort_insert_sorted.
Qed.

End SortFacts.

Section SortedOrders.

Local Open Scope Q_scope.

Lemma orderAfter_asym (a b : Order.t) :
  orderAfter a b = true -> orderAfter b a = false.
Proof.
  unfold orderAfter, compareOrders, JS.neqb.
  destruct (Qeq_bool (Order.valueRs a) (Order.valueRs b)) eqn:E.
  - assert (Qeq_bool (Order.valueRs b) (Order.valueRs a) = true) as E'.
    { apply Qeq_bool_iff. symmetry. now apply Qeq_bool_iff. }
    rewrite E'. simpl.
    destruct (Order.getDeliveryTimeInMinutes a) as [ma |],
      (Order.getDeliveryTimeInMinutes b) as [mb |]; try discriminate.
    rewrite gtb_true, gtb_false.
    change 0 with (inject_Z 0). rewrite <- Zlt_Qlt, <- Zle_Qle. lia.
  - assert (Qeq_bool (Order.valueRs b) (Order.valueRs a) = false) as E'.
    { apply not_true_iff_false. intros H. apply Qeq_bool_iff in H.
      apply not_true_iff_false in E. apply E. apply Qeq_bool_iff. now symmetry. }
    rewrite E'. simpl. rewrite gtb_true, gtb_false. lra.
Qed.

(** The orders are processed by descending value. *)
Lemma sortOrders_descending (orders : list Order.t) :
  Sorted (fun a b => Order.valueRs b <= Order.valueRs a) (sortOrders orders).
Proof.
  unfold sortOrders.
  pose proof (sort_sorted orderAfter orderAfter_asym orders) as H.
  induction H as [| a l Hs IH Hd]; constructor; [exact IH |].
  destruct Hd as [| b l Hab]; constructor.
  unfold orderAfter, compareOrders, JS.neqb in Hab.
  destruct (Qeq_bool (Order.valueRs a) (Order.valueRs b)) eqn:E; simpl in Hab.
  - apply Qeq_bool_iff in E. rewrite E. apply Qle_refl.
  - apply gtb_false in Hab. lra.
Qed.

End SortedOrders.

(** ** AssignmentPlanner: the search for the best driver *)

Section BestDriver.

Local Open Scope Q_scope.

Variable maxHoursPerDriver : Q.
Variable o : Order.t.
Variable route : Route.t.

Lemma tryDriver_cases (best : Best) (i : Z) (a : Assignment) :
  tryDriver maxHoursPerDriver o route best i a = best
  \/ (tryDriver maxHoursPerDriver o route best i a
      = {| bestDriverIndex := i; bestScore := calculateAssignmentScore a o route |}
      /\ fits maxHoursPerDriver route a).
Proof.
  unfold tryDriver, fits.
  destruct (JS.gtb _ maxHoursPerDriver) eqn:Hcap; [now left |].
  destruct (JS.gtb _ (bestScore best)); [right | now left].
  split; [reflexivity | now apply gtb_false].
Qed.


(** The search returns the pair it started from, or the index of a driver
    who passed the capacity check. *)
Lemma findBestDriver_cases (rest : list Assignment) (i : Z) (best : Best) :
  findBestDriver maxHoursPerDriver o route i rest best = best
  \/ exists (k : nat) (a : Assignment),
       rest !! k = Some a
       /\ bestDriverIndex (findBestDriver maxHoursPerDriver o route i rest best)
          = (i + Z.of_nat k)%Z
       /\ fits maxHoursPerDriver route a.
Proof.
  revert i best. induction rest as [| a rest IH]; intros i best; simpl.
  - now left.
  - destruct (IH (i + 1)%Z (tryDriver maxHoursPerDriver o route best i a))
      as [E | (k & a' & Hk & Hi & Hf)].
    + rewrite E. destruct (tryDriver_cases best i a) as [E' | [E' F]].
      * now left.
      * right. exists 0%nat, a. rewrite E'. simpl.
        split; [reflexivity | split; [lia | exact F]].
    + right. exists (S k), a'. split; [exact Hk | split; [lia | exact Hf]].
Qed.


(** From the start pair, an index other than [-1] is that of a driver of the
    list who passed the capacity check. *)
Lemma findBestDriver_found (assignments : list Assignment) :
  let best := findBestDriver maxHoursPerDriver o route 0 assignments noBest in
  bestDriverIndex best <> (-1)%Z ->
  exists a, assignments !! Z.to_nat (bestDriverIndex best) = Some a
            /\ fits maxHoursPerDriver route a.
Proof.
  cbv zeta. intros Hne.
  destruct (findBestDriver_cases assignments 0 noBest) as [E | (k & a & Hk & Hi & Hf)].
  - rewrite E in Hne. now elim Hne.
  - exists a. rewrite Hi. rewrite Z.add_0_l, Nat2Z.id. now split.
Qed.

End BestDriver.

(** ** AssignmentPlanner: one order *)

Section OneOrder.

Local Open Scope Q_scope.

Variable routeMap : gmap Z Route.t.
Variable maxHoursPerDriver : Q.

(** An order leaves the plan as it is or is committed to a driver who
    passed the capacity check. *)
Lemma assignOrder_cases (assignments : list Assignment) (o : Order.t) :
  assignOrder routeMap maxHoursPerDriver assignments o = assignments
  \/ exists (route : Route.t) (i : nat) (a : Assignment),
       routeMap !! Order.routeId o = Some route
       /\ assignments !! i = Some a
       /\ fits maxHoursPerDriver route a
       /\ assignOrder routeMap maxHoursPerDriver assignments o
          = alter (commitOrder o route) i assignments.
Proof.
  unfold assignOrder.
  destruct (routeMap !! Order.routeId o) as [route |]; [| now left].
  cbv zeta. destruct (Z.eqb_spec
    (bestDriverIndex (findBestDriver maxHoursPerDriver o route 0 assignments
                        {| bestDriverIndex := -1; bestScore := - (1) |})) (-1))
    as [E | Hne]; [now left | right].
  destruct (findBestDriver_found maxHoursPerDriver o route assignments Hne)
    as (a & Hi & Hf).
  eexists route, _, a. split; [reflexivity |].
  split; [exact Hi |]. split; [exact Hf | reflexivity].
Qed.

Lemma commitOrder_hours (o : Order.t) (route : Route.t) (a : Assignment) (bound : Q) :
  maxHoursPerDriver <= bound ->
  fits maxHoursPerDriver route a -> within bound (commitOrder o route a).
Proof.
  unfold fits, within, commitOrder. simpl. intros Hb Hf. lra.
Qed.

(** Every commit keeps the hours of every driver within a bound that is at
    least the requested maximum. *)
Lemma assignOrder_within (bound : Q) (assignments : list Assignment) (o : Order.t) :
  maxHoursPerDriver <= bound ->
  Forall (within bound) assignments ->
  Forall (within bound) (assignOrder routeMap maxHoursPerDriver assignments o).
Proof.
  intros Hb Hall.
  destruct (assignOrder_cases assignments o) as [-> | (route & i & a & _ & Hi & Hf & ->)].
  - exact Hall.
  - apply Forall_alter; [exact Hall |].
    intros a' Hi' _. rewrite Hi in Hi'. injection Hi' as <-.
    now apply commitOrder_hours.
Qed.

Lemma assignOrder_of_driver (drivers : list Driver.t)
    (assignments : list Assignment) (o : Order.t) :
  Forall2 of_driver drivers assignments ->
  Forall2 of_driver drivers (assignOrder routeMap maxHoursPerDriver assignments o).
Proof.
  intros Hall.
  destruct (assignOrder_cases assignments o) as [-> | (route & i & a & _ & _ & _ & ->)].
  - exact Hall.
  - apply Forall2_alter_r; [exact Hall |].
    intros d a' _ _ H. exact H.
Qed.

Lemma committed_alter_length (o : Order.t) (route : Route.t)
    (assignments : list Assignment) (i : nat) :
  (length (Spec.committed (alter (commitOrder o route) i assignments))
   <= S (length (Spec.committed assignments)))%nat.
Proof.
  revert i. unfold Spec.committed.
  induction assignments as [| a rest IH]; intros [| i]; simpl;
    rewrite ?length_app; simpl.
  - lia.
  - lia.
  - lia.
  - specialize (IH i). unfold alter in IH. lia.
Qed.

(** An order adds at most one committed order to the plan. *)
Lemma assignOrder_committed_length (assignments : list Assignment) (o : Order.t) :
  (length (Spec.committed (assignOrder routeMap maxHoursPerDriver assignments o))
   <= S (length (Spec.committed assignments)))%nat.
Proof.
  destruct (assignOrder_cases assignments o) as [-> | (route & i & a & _ & _ & _ & ->)].
  - lia.
  - apply committed_alter_length.
Qed.









End OneOrder.

(** ** AssignmentPlanner: the whole run *)

Section Planner.

Local Open Scope Q_scope.

Variable s : Store.
Variable startTime : string.
Variable maxHoursPerDriver : Q.

Local Abbreviation step := (assignOrder (st_routeMap s) maxHoursPerDriver).
Local Abbreviation start := (List.map newAssignment (st_drivers s)).

Lemma plan_unfold :
  fst (optimizeOrderAssignment s startTime maxHoursPerDriver)
  = fold_left step (sortOrders (st_orders s)) start.
Proof. reflexivity. Qed.

(** What holds of a plan and is kept by every order holds after any number
    of orders. *)
Lemma plan_invariant (P : list Assignment -> Prop)
    (orders : list Order.t) (assignments : list Assignment) :
  P assignments ->
  (forall l o, P l -> P (step l o)) ->
  P (fold_left step orders assignments).
Proof.
  intros H0 Hstep. revert assignments H0.
  induction orders as [| o orders IH]; intros assignments H0; simpl; auto.
Qed.

Lemma start_within (bound : Q) : 0 <= bound -> Forall (within bound) start.
Proof.
  intros Hb. apply List.Forall_forall. intros a Hin.
  apply in_map_iff in Hin as (d & <- & _). exact Hb.
Qed.

Lemma start_of_driver : Forall2 of_driver (st_drivers s) start.
Proof.
  induction (st_drivers s) as [| d l IH]; simpl; constructor; auto.
  repeat split.
Qed.

Lemma start_committed : Spec.committed start = [].
Proof.
  unfold Spec.committed. induction (st_drivers s) as [| d l IH]; simpl; auto.
Qed.

Lemma plan_committed_length (orders : list Order.t) (assignments : list Assignment) :
  (length (Spec.committed (fold_left step orders assignments))
   <= length (Spec.committed assignments) + length orders)%nat.
Proof.
  revert assignments. induction orders as [| o orders IH]; intros assignments; simpl.
  - lia.
  - etransitivity; [apply IH |].
    pose proof (assignOrder_committed_length (st_routeMap s) maxHoursPerDriver
                  assignments o).
    lia.
Qed.

(** C5: when the requested maximum is not negative, no assignment of the
    plan has more hours than the maximum; the bound holds of the empty
    assignments and every commit, which follows the check
    [totalHours + executionTime/60 <= maxHoursPerDriver], keeps it. *)
Theorem totalHours_within_max :
  0 <= maxHoursPerDriver ->
  Forall (fun a => totalHours a <= maxHoursPerDriver)
    (fst (optimizeOrderAssignment s startTime maxHoursPerDriver))
  /\ forall (assignments : list Assignment) (o : Order.t),
       Forall (fun a => totalHours a <= maxHoursPerDriver) assignments ->
       Forall (fun a => totalHours a <= maxHoursPerDriver)
         (assignOrder (st_routeMap s) maxHoursPerDriver assignments o).
Proof.
  intros Hmax. split.
  - rewrite plan_unfold.
    apply (plan_invariant (Forall (within maxHoursPerDriver))).
    + now apply start_within.
    + intros l o. apply assignOrder_within, Qle_refl.
  - intros assignments o.
    apply (assignOrder_within _ _ maxHoursPerDriver), Qle_refl.
Qed.

(** C4: on the plan made from any list of pending orders the aggregator's
    counts of on-time and late deliveries add up to the total, and the total
    is at most the number of pending orders. *)
Theorem deliveries_add_up (routeMap : gmap Z Route.t) :
  let k := calculateKPIs (fst (optimizeOrderAssignment s startTime maxHoursPerDriver))
             routeMap in
  (onTimeDeliveries k + lateDeliveries k = totalDeliveries k
   /\ totalDeliveries k <= Z.of_nat (length (st_orders s)))%Z.
Proof.
  cbv zeta. unfold calculateKPIs, report.
  cbn [onTimeDeliveries lateDeliveries totalDeliveries].
  split.
  - apply run_counters_ok.
  - rewrite count_committed.
    etransitivity; [apply totalDeliveries_le |].
    rewrite plan_unfold.
    pose proof (plan_committed_length (sortOrders (st_orders s)) start) as H.
    rewrite start_committed in H.
    change (length (sortOrders (st_orders s)))
      with (length (JS.sort orderAfter (st_orders s))) in H.
    rewrite sort_length in H. simpl in *. lia.
Qed.

(** C8, as the specification states it, fails on the orders array: the
    planner sorts the array it is handed, so the caller finds the order of
    value 200 moved in front of the order of value 100. *)
Lemma planner_reorders_orders :
  let after := snd (optimizeOrderAssignment Sample.twoOrders "09:00" 8) in
  st_orders after
  = [Sample.order 2 200 1 "09:00"; Sample.order 1 100 1 "10:00"]
  /\ st_orders after <> st_orders Sample.twoOrders.
Proof.
  cbv zeta. split.
  - reflexivity.
  - intros H. discriminate H.
Qed.

(** C8 (amended): the planner returns one assignment per driver, in the
    order of the drivers, also for a driver with no order; it leaves the
    driver list and the route lookup as they were, and leaves in the orders
    array the same orders, rearranged in the order in which it processed
    them. *)
Theorem planner_frame :
  let result := optimizeOrderAssignment s startTime maxHoursPerDriver in
  Forall2 of_driver (st_drivers s) (fst result)
  /\ length (fst result) = length (st_drivers s)
  /\ st_drivers (snd result) = st_drivers s
  /\ st_routeMap (snd result) = st_routeMap s
  /\ Permutation (st_orders s) (st_orders (snd result))
  /\ st_orders (snd result) = sortOrders (st_orders s).
Proof.
  cbv zeta.
  assert (Forall2 of_driver (st_drivers s)
            (fst (optimizeOrderAssignment s startTime maxHoursPerDriver))) as H.
  { rewrite plan_unfold. apply (plan_invariant (Forall2 of_driver (st_drivers s))).
    - apply start_of_driver.
    - intros l o. apply assignOrder_of_driver. }
  split; [exact H |].
  split; [symmetry; exact (Forall2_length _ _ _ H) |].
  split; [reflexivity |]. split; [reflexivity |].
  split; [apply sort_perm | reflexivity].
Qed.


(** C10: two runs of the planner that differ only in the shift start time
    return the same assignments, leave the same store, and give the same
    KPIs. *)
Theorem startTime_is_ignored (startTime' : string) (routeMap : gmap Z Route.t) :
  optimizeOrderAssignment s startTime maxHoursPerDriver
  = optimizeOrderAssignment s startTime' maxHoursPerDriver
  /\ calculateKPIs (fst (optimizeOrderAssignment s startTime maxHoursPerDriver)) routeMap
     = calculateKPIs (fst (optimizeOrderAssignment s startTime' maxHoursPerDriver)) routeMap.
Proof. split; reflexivity. Qed.

End Planner.

(** ** runSimulation *)

Section Run.

Variable db : Database.
Variable inputs : Inputs.

Lemma limit_short {A : Type} (n : nat) (l : list A) :
  (length l < n)%nat -> limit n l = l.
Proof.
  intros H. unfold limit. destruct n; [reflexivity |].
  apply firstn_all2. lia.
Qed.

Lemma limit_enough {A : Type} (n : nat) (l : list A) :
  (n <= length l)%nat -> (n <= length (limit n l))%nat.
Proof.
  intros H. unfold limit. destruct n; [lia |].
  rewrite length_firstn. lia.
Qed.

Lemma findAvailableDrivers_length (n : nat) :
  let available := length (List.filter Driver.isAvailable (db_drivers db)) in
  ((available < n)%nat -> length (findAvailableDrivers db n) = available)
  /\ ((n <= available)%nat -> (n <= length (findAvailableDrivers db n))%nat).
Proof.
  cbv zeta. unfold findAvailableDrivers. split; intros H.
  - rewrite limit_short; rewrite sort_length; [reflexivity | exact H].
  - apply limit_enough. now rewrite sort_length.
Qed.

(** C7: when fewer drivers are available than requested the run fails with
    the error that reports the number available, and returns no assignments
    and no KPIs; otherwise, so also when the two numbers are equal, it
    returns the plan of the planner and its KPIs. *)
Theorem insufficient_drivers_error :
  let available := length (List.filter Driver.isAvailable (db_drivers db)) in
  let requested := numberOfDrivers inputs in
  runSimulation db inputs
  = if (available <? requested)%nat
    then inl (OnlyDriversAvailable available requested)
    else
      let routeMap := buildRouteMap (db_routes db) in
      let plan :=
        fst (optimizeOrderAssignment
               {| st_drivers := findAvailableDrivers db requested;
                  st_orders := List.filter isPending (db_orders db);
                  st_routeMap := routeMap |}
               (startTime inputs) (maxHoursPerDriver inputs)) in
      inr (plan, calculateKPIs plan routeMap).
Proof.
  cbv zeta. unfold runSimulation.
  destruct (findAvailableDrivers_length (numberOfDrivers inputs)) as [Hlt Hge].
  cbv zeta in Hlt, Hge.
  destruct (Nat.ltb_spec
              (length (List.filter Driver.isAvailable (db_drivers db)))
              (numberOfDrivers inputs)) as [H | H].
  - rewrite (Hlt H). apply Nat.ltb_lt in H. rewrite H. reflexivity.
  - specialize (Hge H). apply Nat.ltb_ge in Hge. rewrite Hge. reflexivity.
Qed.

End Run.

(** ** The properties at sample inputs *)

Section Samples.

Local Open Scope Q_scope.

(** Five drivers requested, three available. *)
Example five_requested_three_available :
  runSimulation
    {| db_drivers := [Sample.driver 1 "A" 6; Sample.driver 2 "B" 9; Sample.driver 3 "C" 7];
       db_orders := [Sample.order 1 500 1 "10:00"];
       db_routes := [Sample.route 1 10 Low 30] |}
    {| numberOfDrivers := 5; startTime := "09:00"; maxHoursPerDriver := 8 |}
  = inl (OnlyDriversAvailable 3 5).
Proof. reflexivity. Qed.

(** The order of value 1500 goes first, then of the two orders of value 500
    the one due at 09:00; the rested driver takes all three, the last one
    late. *)
Example fleet_run :
  match runSimulation Sample.fleet Sample.shift with
  | inr (plan, k) =>
      List.map (fun a => List.map (fun ao => Order.orderId (order ao)) (assignedOrders a)) plan
      = [[1; 3; 2]%Z; []]
      /\ List.map (fun a => List.map isLate (assignedOrders a)) plan
         = [[false; false; true]; []]
      /\ totalProfit k = 2360%Z
      /\ efficiencyScore k == 6667 # 100
      /\ (onTimeDeliveries k, lateDeliveries k, totalDeliveries k) = (2, 1, 3)%Z
      /\ totalFuelCost k = 240%Z
      /\ fuelCostBreakdown k
         = {| lowTraffic := 100%Z; mediumTraffic := 0%Z; highTraffic := 140%Z |}
  | inl _ => False
  end.
Proof. vm_compute. repeat split. Qed.

(** With a negative maximum no order is committed, and the 0 hours of the
    driver are above the maximum. *)
Example negative_max_idle_driver :
  List.map totalHours (fst (optimizeOrderAssignment Sample.lateStore "09:00" (- (1))))
  = [0]
  /\ - (1) < 0.
Proof. split; reflexivity. Qed.

Lemma totalHours_within_max_sample :
  0 <= 8
  /\ Forall (fun a => totalHours a <= 8)
       (fst (optimizeOrderAssignment Sample.lateStore "09:00" 8)).
Proof.
  assert (0 <= 8) as H by (unfold Qle; simpl; lia).
  split; [exact H |].
  exact (proj1 (totalHours_within_max Sample.lateStore "09:00" 8 H)).
Defined.


End Samples.

(** * Further properties of the engine *)

(** ** The choice of the driver *)

Section Choice.

Local Open Scope Q_scope.

Variable maxHoursPerDriver : Q.
Variable o : Order.t.
Variable route : Route.t.

Local Abbreviation score := (fun a => calculateAssignmentScore a o route).
Local Abbreviation search := (findBestDriver maxHoursPerDriver o route).




End Choice.

(** ** What the plan records *)

Section PlanRecords.

Local Open Scope Q_scope.

Variable s : Store.
Variable startTime : string.
Variable maxHoursPerDriver : Q.

Local Abbreviation routeMap := (st_routeMap s).
Local Abbreviation plan := (fst (optimizeOrderAssignment s startTime maxHoursPerDriver)).

Lemma hoursOf_app (l : list AssignedOrder) (ao : AssignedOrder) :
  hoursOf (l ++ [ao]) == hoursOf l + inject_Z (estimatedTime ao) / 60.
Proof.
  induction l as [| x l IH]; simpl.
  - ring.
  - rewrite IH. ring.
Qed.

Lemma commitOrder_consistent (o : Order.t) (route : Route.t) (a : Assignment) :
  routeMap !! Order.routeId o = Some route ->
  consistent routeMap a -> consistent routeMap (commitOrder o route a).
Proof.
  intros Hroute [Hall Hhours]. unfold consistent, commitOrder. simpl. split.
  - apply Forall_app. split; [exact Hall |].
    constructor; [| constructor].
    exists route. simpl. now repeat split.
  - rewrite hoursOf_app. simpl. rewrite Hhours. reflexivity.
Qed.

Lemma assignOrder_consistent (assignments : list Assignment) (o : Order.t) :
  Forall (consistent routeMap) assignments ->
  Forall (consistent routeMap)
    (assignOrder routeMap maxHoursPerDriver assignments o).
Proof.
  intros Hall.
  destruct (assignOrder_cases routeMap maxHoursPerDriver assignments o)
    as [-> | (route & i & a & Hroute & _ & _ & ->)].
  - exact Hall.
  - apply Forall_alter; [exact Hall |].
    intros a' _. now apply commitOrder_consistent.
Qed.

Lemma plan_keeps_consistent : Forall (consistent routeMap) plan.
Proof.
  rewrite plan_unfold.
  apply (plan_invariant s maxHoursPerDriver (Forall (consistent routeMap))).
  - apply List.Forall_forall. intros a Hin.
    apply in_map_iff in Hin as (d & <- & _).
    split; [constructor | reflexivity].
  - intros l o. apply assignOrder_consistent.
Qed.


Lemma committed_on_route :
  Forall (fun ao => is_Some (routeMap !! Order.routeId (order ao)))
    (Spec.committed plan).
Proof.
  pose proof plan_keeps_consistent as H. unfold Spec.committed.
  induction H as [| a l [Ha _] _ IH]; simpl.
  - constructor.
  - apply Forall_app. split; [| exact IH].
    eapply List.Forall_impl; [| exact Ha].
    intros ao (route & Hr & _). now exists route.
Qed.

Lemma totalDeliveries_counts_all (l : list AssignedOrder) (run : Running) :
  Forall (fun ao => is_Some (routeMap !! Order.routeId (order ao))) l ->
  run_totalDeliveries (fold_left (countOrder routeMap) l run)
  = (run_totalDeliveries run + Z.of_nat (length l))%Z.
Proof.
  intros H. revert run. induction H as [| ao l [route Hr] _ IH]; intros run.
  - simpl. lia.
  - cbn [fold_left length]. rewrite IH. unfold countOrder. rewrite Hr.
    cbn [run_totalDeliveries]. lia.
Qed.

(** X3: aggregated with the lookup it was planned with, a plan has as many
    deliveries as it has committed orders: the aggregator passes over none
    of them for a missing route. *)
Theorem totalDeliveries_is_committed :
  totalDeliveries (calculateKPIs plan routeMap)
  = Z.of_nat (length (Spec.committed plan)).
Proof.
  unfold calculateKPIs, report. cbn [totalDeliveries].
  rewrite count_committed.
  rewrite (totalDeliveries_counts_all _ _ committed_on_route).
  reflexivity.
Qed.

(** X4: an order whose route is not in the lookup is committed to no
    driver. *)
Theorem dangling_order_not_committed (o : Order.t) :
  routeMap !! Order.routeId o = None -> ~ Exists (carries o) plan.
Proof.
  intros Hnone Hex.
  apply List.Exists_exists in Hex as (a & Hin & ao & Hao & <-).
  pose proof plan_keeps_consistent as H.
  rewrite List.Forall_forall in H. destruct (H a Hin) as [Hall _].
  rewrite List.Forall_forall in Hall.
  destruct (Hall ao Hao) as (route & Hr & _). congruence.
Qed.

Lemma ordersOf_commit (o : Order.t) (route : Route.t)
    (assignments : list Assignment) (i : nat) (a : Assignment) :
  assignments !! i = Some a ->
  Permutation (ordersOf (alter (commitOrder o route) i assignments))
    (o :: ordersOf assignments).
Proof.
  unfold ordersOf, Spec.committed.
  revert i. induction assignments as [| x l IH]; intros [| i] Hi; simpl in Hi.
  - discriminate.
  - discriminate.
  - injection Hi as ->. simpl.
    rewrite !List.map_app. simpl.
    rewrite <- List.app_assoc. simpl.
    symmetry. apply Permutation_middle.
  - simpl. rewrite !List.map_app.
    specialize (IH i Hi). unfold alter in IH. rewrite IH.
    symmetry. apply Permutation_middle.
Qed.

Lemma plan_orders (orders : list Order.t) (assignments : list Assignment) :
  exists dropped,
    Permutation
      (ordersOf (fold_left (assignOrder routeMap maxHoursPerDriver) orders assignments)
       ++ dropped)
      (ordersOf assignments ++ orders).
Proof.
  revert assignments. induction orders as [| o orders IH]; intros assignments.
  - exists []. reflexivity.
  - cbn [fold_left].
    destruct (IH (assignOrder routeMap maxHoursPerDriver assignments o)) as [d Hd].
    destruct (assignOrder_cases routeMap maxHoursPerDriver assignments o)
      as [E | (route & i & a & _ & Hi & _ & E)]; rewrite E in *.
    + exists (o :: d).
      rewrite <- Permutation_middle, Hd.
      rewrite <- Permutation_middle. reflexivity.
    + exists d. rewrite Hd.
      rewrite (ordersOf_commit o route assignments i a Hi).
      simpl. apply Permutation_middle.
Qed.

(** X5: the committed orders of the plan together with the orders that
    were dropped are the pending orders, each as often as it was pending:
    no order is committed twice and none is made up. *)
Theorem committed_orders_are_pending :
  exists dropped, Permutation (ordersOf plan ++ dropped) (st_orders s).
Proof.
  rewrite plan_unfold.
  destruct (plan_orders (sortOrders (st_orders s))
              (List.map newAssignment (st_drivers s))) as [d Hd].
  exists d. rewrite Hd.
  assert (ordersOf (List.map newAssignment (st_drivers s)) = []) as ->.
  { unfold ordersOf. now rewrite start_committed. }
  simpl. symmetry. apply sort_perm.
Qed.

End PlanRecords.

(** ** Lateness *)

Section Lateness.

Local Open Scope Q_scope.

Lemma multiplier_pos (l : TrafficLevel) : 0 < Route.trafficMultiplier l.
Proof. destruct l; reflexivity. Qed.

Lemma expectedTime_lower (route : Route.t) :
  Route.baseTimeMin route * Route.trafficMultiplier (Route.trafficLevel route)
  <= inject_Z (Route.getExpectedTime route).
Proof. apply Qle_ceiling. Qed.

Lemma orderTime_lower (route : Route.t) (fatigued : bool) :
  inject_Z (Route.getExpectedTime route) * Spec.fatigueFactor fatigued
  <= inject_Z (calculateOrderTime route fatigued).
Proof. rewrite calculateOrderTime_unfold. apply Qle_ceiling. Qed.

(** X6: on a route whose base time is not negative, fatigue never
    shortens the execution time, and an order that is late with a rested
    driver is late with a fatigued one. *)
Theorem fatigue_never_helps (route : Route.t) :
  0 <= Route.baseTimeMin route ->
  (calculateOrderTime route false <= calculateOrderTime route true)%Z
  /\ forall o, isOrderLate o route false = true -> isOrderLate o route true = true.
Proof.
  intros Hbase.
  assert (0 <= inject_Z (Route.getExpectedTime route)) as HE.
  { pose proof (expectedTime_lower route) as H.
    pose proof (multiplier_pos (Route.trafficLevel route)) as Hm.
    assert (0 <= Route.baseTimeMin route
                 * Route.trafficMultiplier (Route.trafficLevel route)) by nra.
    lra. }
  assert (calculateOrderTime route false <= calculateOrderTime route true)%Z as Hle.
  { rewrite !calculateOrderTime_unfold. apply ceil_monotone.
    unfold Spec.fatigueFactor. lra. }
  split; [exact Hle |].
  intros o. unfold isOrderLate. rewrite !gtb_true.
  rewrite Zle_Qle in Hle. lra.
Qed.

(** X7: an order is late whatever the driver when the traffic adds more
    than 10 minutes to the base time, that is on a High route of base time
    above 20 and on a Medium route of base time above 50. *)
Theorem long_route_is_late (o : Order.t) (route : Route.t) (fatigued : bool) :
  10 < Route.baseTimeMin route
       * (Route.trafficMultiplier (Route.trafficLevel route) - 1) ->
  isOrderLate o route fatigued = true.
Proof.
  intros H. unfold isOrderLate. apply gtb_true.
  pose proof (expectedTime_lower route) as HE.
  pose proof (orderTime_lower route fatigued) as HT.
  assert (0 <= Route.baseTimeMin route) as Hbase.
  { destruct (Route.trafficLevel route); simpl in H; lra. }
  assert (Route.baseTimeMin route + 10 < inject_Z (Route.getExpectedTime route)) by lra.
  unfold Spec.fatigueFactor in HT. destruct fatigued; lra.
Qed.

(** X8: with a rested driver an order on a Low route is never late. *)
Theorem low_route_rested_on_time (o : Order.t) (route : Route.t) :
  Route.trafficLevel route = Low -> isOrderLate o route false = false.
Proof.
  intros Hlow. unfold isOrderLate. apply gtb_false.
  rewrite calculateOrderTime_unfold. unfold Spec.fatigueFactor, Route.getExpectedTime.
  rewrite Hlow. simpl Route.trafficMultiplier.
  assert (JS.ceil (inject_Z (JS.ceil (Route.baseTimeMin route * 1)) * 1)
          = JS.ceil (Route.baseTimeMin route)) as ->.
  { transitivity (JS.ceil (inject_Z (JS.ceil (Route.baseTimeMin route)))).
    - apply Qceiling_comp.
      assert (Route.baseTimeMin route * 1 == Route.baseTimeMin route) as -> by ring.
      ring.
    - apply ceil_of_integer. }
  pose proof (Qceiling_lt (Route.baseTimeMin route)) as H.
  unfold JS.ceil. rewrite inject_Z_minus in H. change (inject_Z 1) with 1 in H. lra.
Qed.

End Lateness.

(** ** The reported figures *)

Section Figures.

Local Open Scope Q_scope.

Variable assignments : list Assignment.
Variable routeMap : gmap Z Route.t.

Lemma running_profit_nonneg :
  0 <= run_totalProfit (fold_left (countAssignment routeMap) assignments startRunning).
Proof.
  apply (count_invariant routeMap (fun run => 0 <= run_totalProfit run)).
  - apply Qle_refl.
  - intros run ao H. unfold countOrder.
    destruct (routeMap !! Order.routeId (order ao)) as [route |]; [| exact H].
    cbn [run_totalProfit].
    pose proof (Q.le_max_l 0 (orderProfit ao route)) as M. unfold JS.max. lra.
Qed.

(** X9: the reported total profit is never negative, whatever the
    penalties and the fuel costs. *)
Theorem totalProfit_nonneg : (0 <= totalProfit (calculateKPIs assignments routeMap))%Z.
Proof.
  unfold calculateKPIs, report. cbn [totalProfit].
  rewrite <- (round_of_integer 0). apply round_monotone.
  apply running_profit_nonneg.
Qed.

(** X10: the results of the engine are within the bounds that the schema of
    the stored simulations puts on them, so saving them is never refused
    for these bounds. *)
Theorem results_pass_schema :
  SimulationModel.resultsValid (calculateKPIs assignments routeMap).
Proof.
  unfold SimulationModel.resultsValid, calculateKPIs, report.
  cbn [efficiencyScore onTimeDeliveries lateDeliveries totalDeliveries].
  destruct (run_counters_ok assignments routeMap) as (E & Hon & Hlate).
  set (run := fold_left (countAssignment routeMap) assignments startRunning) in *.
  assert (run_onTimeDeliveries run <= run_totalDeliveries run)%Z as Hle by lia.
  pose proof (score_range _ _ Hon Hle) as [L U].
  repeat split; try assumption. lia.
Qed.

End Figures.

(** ** The drivers and the routes of a run *)

Section RunInputs.

Local Open Scope Q_scope.

Variable db : Database.

Lemma driverAfter_asym (a b : Driver.t) :
  driverAfter a b = true -> driverAfter b a = false.
Proof.
  unfold driverAfter. rewrite orb_true_iff, andb_true_iff, orb_false_iff, andb_false_iff.
  rewrite !gtb_true, !gtb_false, Qeq_bool_iff.
  intros [H | [E H]].
  - split; [lra |]. left. apply not_true_iff_false. rewrite Qeq_bool_iff. lra.
  - split; [lra |]. right. lra.
Qed.

Lemma driverAfter_false (a b : Driver.t) :
  driverAfter a b = false ->
  Driver.fatigueLevel a <= Driver.fatigueLevel b
  /\ (Driver.fatigueLevel a == Driver.fatigueLevel b ->
      Driver.currentDayHours a <= Driver.currentDayHours b).
Proof.
  unfold driverAfter. rewrite orb_false_iff, andb_false_iff, !gtb_false.
  intros [H [N | H']].
  - split; [exact H |]. intros E. apply Qeq_bool_iff in E. congruence.
  - split; [exact H | intros _; exact H'].
Qed.

Lemma Sorted_limit {A : Type} (R : A -> A -> Prop) (n : nat) (l : list A) :
  Sorted R l -> Sorted R (limit n l).
Proof.
  unfold limit. destruct n as [| n]; [auto |].
  generalize (S n) as k. intros k H. revert k.
  induction H as [| x l Hs IH Hd]; intros [| k]; simpl; try constructor.
  - apply IH.
  - destruct Hd as [| y l Hxy]; destruct k; simpl; constructor. exact Hxy.
Qed.

Lemma limit_subset {A : Type} (n : nat) (l : list A) (x : A) :
  In x (limit n l) -> In x l.
Proof.
  unfold limit. destruct n; [auto |]. intros H.
  rewrite <- (firstn_skipn (S n) l). apply in_or_app. now left.
Qed.

(** X11: the drivers found for a run are available drivers of the
    database, in ascending order of fatigue level and, at equal fatigue
    level, of hours worked on the day. *)
Theorem findAvailableDrivers_sorted (n : nat) :
  Forall (fun d => In d (db_drivers db) /\ Driver.isAvailable d = true)
    (findAvailableDrivers db n)
  /\ Sorted
       (fun a b =>
          Driver.fatigueLevel a <= Driver.fatigueLevel b
          /\ (Driver.fatigueLevel a == Driver.fatigueLevel b ->
              Driver.currentDayHours a <= Driver.currentDayHours b))
       (findAvailableDrivers db n).
Proof.
  unfold findAvailableDrivers. split.
  - apply List.Forall_forall. intros d Hin.
    apply limit_subset in Hin.
    apply (Permutation_in d (Permutation_sym (sort_perm driverAfter _))) in Hin.
    now apply filter_In in Hin.
  - apply Sorted_limit.
    pose proof (sort_sorted driverAfter driverAfter_asym
                  (List.filter Driver.isAvailable (db_drivers db))) as H.
    induction H as [| a l Hs IH Hd]; constructor; [exact IH |].
    destruct Hd as [| b l Hab]; constructor. now apply driverAfter_false.
Qed.

Lemma find_snoc {A : Type} (f : A -> bool) (l : list A) (x : A) :
  List.find f (l ++ [x])
  = match List.find f l with
    | Some y => Some y
    | None => if f x then Some x else None
    end.
Proof.
  induction l as [| y l IH]; simpl.
  - reflexivity.
  - destruct (f y); [reflexivity | exact IH].
Qed.

Lemma buildRouteMap_from (routes : list Route.t) (m : gmap Z Route.t) (id : Z) :
  fold_left (fun m route => <[Route.routeId route := route]> m) routes m !! id
  = match List.find (fun r => Route.routeId r =? id)%Z (rev routes) with
    | Some r => Some r
    | None => m !! id
    end.
Proof.
  revert m. induction routes as [| r routes IH]; intros m; simpl.
  - reflexivity.
  - rewrite IH, find_snoc.
    destruct (List.find _ (rev routes)); [reflexivity |].
    destruct (Z.eqb_spec (Route.routeId r) id) as [-> | Hne].
    + apply lookup_insert_eq.
    + now apply lookup_insert_ne.
Qed.

(** X12: the route lookup gives for an identity the last route of the list
    with that identity, and nothing exactly when no route of the list has
    it. *)
Theorem buildRouteMap_lookup (routes : list Route.t) (id : Z) :
  buildRouteMap routes !! id
  = List.find (fun r => Route.routeId r =? id)%Z (rev routes)
  /\ (buildRouteMap routes !! id = None
      <-> forall r, In r routes -> Route.routeId r <> id).
Proof.
  assert (buildRouteMap routes !! id
          = List.find (fun r => Route.routeId r =? id)%Z (rev routes)) as E.
  { unfold buildRouteMap. rewrite buildRouteMap_from.
    destruct (List.find _ (rev routes)); [reflexivity | apply lookup_empty]. }
  split; [exact E |]. rewrite E. split.
  - intros Hnone r Hin Hid.
    apply in_rev in Hin.
    pose proof (find_none _ _ Hnone r Hin) as F. simpl in F.
    apply Z.eqb_neq in F. contradiction.
  - intros Hall.
    destruct (List.find _ (rev routes)) as [r |] eqn:F; [| reflexivity].
    apply find_some in F as [Hin Hid].
    apply in_rev in Hin. apply Z.eqb_eq in Hid. now elim (Hall r Hin).
Qed.

Variable inputs : Inputs.

(** X13: a run that succeeds returns one assignment for each driver found,
    in their order, so as many as were requested (as many as are available
    when 0 were requested), each for an available driver of the database. *)
Theorem run_plans_found_drivers :
  match runSimulation db inputs with
  | inr (plan, _) =>
      Forall2 of_driver (findAvailableDrivers db (numberOfDrivers inputs)) plan
      /\ length plan
         = (if (numberOfDrivers inputs =? 0)%nat
            then length (List.filter Driver.isAvailable (db_drivers db))
            else numberOfDrivers inputs)
  | inl _ => True
  end.
Proof.
  unfold runSimulation.
  destruct (Nat.ltb_spec (length (findAvailableDrivers db (numberOfDrivers inputs)))
              (numberOfDrivers inputs)) as [Hlt | Hge]; [exact I |].
  cbv zeta.
  set (s := {| st_drivers := findAvailableDrivers db (numberOfDrivers inputs);
               st_orders := List.filter isPending (db_orders db);
               st_routeMap := buildRouteMap (db_routes db) |}).
  assert (Forall2 of_driver (st_drivers s)
            (fst (optimizeOrderAssignment s (startTime inputs)
                    (maxHoursPerDriver inputs)))) as H.
  { rewrite plan_unfold.
    apply (plan_invariant s (maxHoursPerDriver inputs) (Forall2 of_driver (st_drivers s))).
    - apply start_of_driver.
    - intros l o. apply assignOrder_of_driver. }
  split; [exact H |].
  rewrite <- (Forall2_length _ _ _ H). simpl st_drivers.
  unfold findAvailableDrivers, limit in *.
  destruct (numberOfDrivers inputs) as [| n]; simpl Nat.eqb; cbv iota.
  - apply sort_length.
  - rewrite length_firstn in *. lia.
Qed.

End RunInputs.

(** ** The methods of the models *)

Section ModelMethods.

Local Open Scope Q_scope.

(** X14: the profit that the order model computes for an order, given the
    lateness the engine found and the engine's penalty for it, is the
    floored contribution that the engine adds to the total profit; the
    route model and the engine compute the same fuel cost. *)
Theorem calculateProfit_agrees (ao : AssignedOrder) (route : Route.t) (bonus : Q) :
  OrderModel.calculateProfit
    {| OrderModel.fields := order ao;
       OrderModel.isLate := isLate ao;
       OrderModel.penalty := if isLate ao then LATE_DELIVERY_PENALTY else 0;
       OrderModel.bonus := bonus |}
    (Some route)
  == JS.max 0 (orderProfit ao route)
  /\ RouteModel.calculateFuelCost route == calculateFuelCost route.
Proof.
  assert (RouteModel.calculateFuelCost route == calculateFuelCost route) as F.
  { unfold RouteModel.calculateFuelCost, calculateFuelCost,
      BASE_FUEL_COST, HIGH_TRAFFIC_SURCHARGE.
    destruct (Route.trafficLevel route); ring. }
  split; [| exact F].
  unfold OrderModel.calculateProfit, OrderModel.isHighValue, orderProfit.
  cbn [OrderModel.fields OrderModel.isLate OrderModel.penalty].
  unfold JS.max. rewrite F.
  unfold LATE_DELIVERY_PENALTY, HIGH_VALUE_BONUS_RATE.
  destruct (isLate ao), (JS.gtb (Order.valueRs (order ao)) 1000); simpl;
    apply Q.max_compat; try reflexivity; ring.
Qed.

Lemma sum_hours_range (l : list Q) (acc : Q) :
  Forall (fun h => 0 <= h /\ h <= 24) l ->
  acc <= fold_left Qplus l acc
  /\ fold_left Qplus l acc <= acc + 24 * inject_Z (Z.of_nat (length l)).
Proof.
  intros H. revert acc. induction H as [| h l [Hl Hu] _ IH]; intros acc.
  - simpl. change (inject_Z (Z.of_nat 0)) with 0. lra.
  - cbn [fold_left length]. destruct (IH (acc + h)) as [L U].
    rewrite Nat2Z.inj_succ, <- Z.add_1_r, inject_Z_plus.
    change (inject_Z 1) with 1. split; lra.
Qed.

(** X15: for a driver with seven recorded days of between 0 and 24 hours
    each, as the schema requires, the weekly average is between 0 and 24. *)
Theorem getWeeklyAverage_range (d : Driver.t) :
  length (Driver.pastWeekHours d) = 7%nat ->
  Forall (fun h => 0 <= h /\ h <= 24) (Driver.pastWeekHours d) ->
  0 <= DriverModel.getWeeklyAverage d /\ DriverModel.getWeeklyAverage d <= 24.
Proof.
  intros Hlen Hall. unfold DriverModel.getWeeklyAverage.
  destruct (sum_hours_range _ 0 Hall) as [L U].
  rewrite Hlen in U. change (inject_Z (Z.of_nat 7)) with 7 in U.
  split.
  - apply Qle_shift_div_l; lra.
  - apply Qle_shift_div_r; lra.
Qed.

End ModelMethods.

(** ** The pages of the history *)

Section HistoryPages.

Local Open Scope Q_scope.

(** A whole number is below the ceiling of a number exactly when it is
    below the number. *)
Lemma lt_ceil_iff (p : Z) (x : Q) : (p < JS.ceil x)%Z <-> inject_Z p < x.
Proof.
  unfold JS.ceil. split.
  - intros H. pose proof (Qceiling_lt x) as C.
    assert (inject_Z p <= inject_Z (Qceiling x - 1)) by (rewrite <- Zle_Qle; lia).
    lra.
  - intros H. pose proof (Qle_ceiling x) as C.
    rewrite Zlt_Qlt. lra.
Qed.

(** X16: for a page and a page size of at least 1, the history reports a
    next page exactly when simulations are left after those of the page
    ([skip + limit < total]), and a previous page exactly when some were
    passed over ([0 < skip]). *)
Theorem history_next_and_prev (pageParam limitParam : option string) (total : Z) :
  (1 <= History.page pageParam)%Z ->
  (1 <= History.limit limitParam)%Z ->
  let p := History.pagination pageParam limitParam total in
  (History.hasNext p = true
   <-> (History.skip pageParam limitParam + History.limit limitParam < total)%Z)
  /\ (History.hasPrev p = true <-> (0 < History.skip pageParam limitParam)%Z).
Proof.
  intros Hp Hl. cbv zeta. unfold History.pagination, History.skip.
  cbn [History.hasNext History.hasPrev].
  set (page := History.page pageParam) in *.
  set (limit := History.limit limitParam) in *.
  rewrite !Z.ltb_lt, lt_ceil_iff. split.
  - assert (0 < inject_Z limit) as Hpos.
    { change 0 with (inject_Z 0). rewrite <- Zlt_Qlt. lia. }
    assert ((page - 1) * limit + limit = page * limit)%Z as -> by ring.
    rewrite Zlt_Qlt, inject_Z_mult. split.
    + intros H.
      assert (inject_Z total / inject_Z limit * inject_Z limit == inject_Z total) as E
        by (field; lra).
      rewrite <- E. apply Qmult_lt_r; assumption.
    + intros H. now apply Qlt_shift_div_l.
  - split; intros H; nia.
Qed.

End HistoryPages.

(** ** Strings *)

Section Strings.

Lemma split_nonempty (sep : ascii) (s : string) : JSLib.split sep s <> [].
Proof.
  induction s as [| c s IH]; simpl.
  - discriminate.
  - destruct (Ascii.eqb c sep); [discriminate |].
    destruct (JSLib.split sep s); [contradiction | discriminate].
Qed.

(** No part of a split contains the separator. *)
Lemma split_parts_free (sep : ascii) (s : string) :
  Forall (fun part => Text.occurs sep part = false) (JSLib.split sep s).
Proof.
  induction s as [| c s IH]; simpl.
  - repeat constructor.
  - destruct (Ascii.eqb c sep) eqn:E.
    + constructor; [reflexivity | exact IH].
    + destruct (JSLib.split sep s) as [| h t] eqn:Es;
        [now elim (split_nonempty sep s) |].
      apply Forall_cons_1 in IH as [Hh Ht].
      constructor; [| exact Ht]. simpl. now rewrite E.
Qed.

(** A part of a split contains only characters of the string. *)
Lemma split_parts_within (c sep : ascii) (s : string) :
  Text.occurs c s = false ->
  Forall (fun part => Text.occurs c part = false) (JSLib.split sep s).
Proof.
  induction s as [| c' s IH]; simpl; intros H.
  - repeat constructor.
  - apply orb_false_iff in H as [Hc Hs]. specialize (IH Hs).
    destruct (Ascii.eqb c' sep).
    + constructor; [reflexivity | exact IH].
    + destruct (JSLib.split sep s) as [| h t] eqn:Es;
        [now elim (split_nonempty sep s) |].
      apply Forall_cons_1 in IH as [Hh Ht].
      constructor; [| exact Ht]. simpl. now rewrite Hc.
Qed.

(** A string without the separator is the only part of its split. *)
Lemma split_free (sep : ascii) (s : string) :
  Text.occurs sep s = false -> JSLib.split sep s = [s].
Proof.
  induction s as [| c s IH]; simpl; intros H.
  - reflexivity.
  - apply orb_false_iff in H as [Hc Hs]. rewrite Hc, (IH Hs). reflexivity.
Qed.

Lemma split_app (sep : ascii) (s1 s2 : string) :
  Text.occurs sep s1 = false ->
  JSLib.split sep (String.append s1 (String sep s2)) = s1 :: JSLib.split sep s2.
Proof.
  induction s1 as [| c s1 IH]; simpl; intros H.
  - now rewrite Ascii.eqb_refl.
  - apply orb_false_iff in H as [Hc Hs]. rewrite Hc, (IH Hs). reflexivity.
Qed.

Lemma split_colon_split (s : string) : JS.split_colon s = JSLib.split ":" s.
Proof.
  induction s as [| c s IH]; simpl.
  - reflexivity.
  - now rewrite IH.
Qed.

Lemma occurs_substring1 (c : ascii) (s : string) :
  Text.occurs c s = false -> Text.occurs c (JSLib.substring1 s) = false.
Proof.
  destruct s as [| c' s]; simpl; [auto |].
  intros H. now apply orb_false_iff in H.
Qed.

End Strings.

(** ** The seeder *)

Section Seeder.

Lemma parsePipeCsv_fields (csvData : string) :
  Forall
    (fun row =>
       (2 <= length row)%nat
       /\ Forall (fun field => Text.occurs "|" field = false
                               /\ Text.occurs DataSeeder.newline field = false) row)
    (DataSeeder.parsePipeCsv csvData).
Proof.
  unfold DataSeeder.parsePipeCsv.
  pose proof (split_parts_free DataSeeder.newline (JSLib.trim csvData)) as Hlines.
  induction Hlines as [| line lines Hline _ IH]; simpl.
  - constructor.
  - apply Forall_app. split; [| exact IH].
    destruct (DataSeeder.skipped line); [constructor |].
    destruct (Nat.ltb_spec 1 (length (JSLib.split "|" (JSLib.substring1 line))))
      as [Hlen | _]; [| constructor].
    constructor; [| constructor]. split; [lia |].
    pose proof (split_parts_free "|" (JSLib.substring1 line)) as H1.
    pose proof (split_parts_within DataSeeder.newline "|" (JSLib.substring1 line)
                  (occurs_substring1 _ _ Hline)) as H2.
    rewrite List.Forall_forall in *. intros f Hf. split; auto.
Qed.


Lemma driversOfRow_nothing (row : list string) :
  Forall (fun field => Text.occurs "|" field = false) row ->
  DataSeeder.driversOfRow row = [].
Proof.
  intros H. unfold DataSeeder.driversOfRow.
  destruct row as [| name [| hours [| pastWeekData rest]]]; try reflexivity.
  destruct (JSLib.parseInt hours); [| reflexivity].
  destruct (JSLib.truthy name && JSLib.truthy pastWeekData); [| reflexivity].
  apply Forall_cons_1 in H as [_ H]. apply Forall_cons_1 in H as [_ H].
  apply Forall_cons_1 in H as [H _].
  rewrite (split_free _ _ H). simpl.
  destruct (JSLib.parseInt pastWeekData); reflexivity.
Qed.

(** X18: whatever the file holds, [seedDrivers] has no driver to insert: a
    field of a row holds no [|], so splitting the third field at [|] gives
    one value, never the seven that a driver needs. *)
Theorem seedDrivers_inserts_nothing (csvData : string) :
  DataSeeder.driversToInsert csvData = [].
Proof.
  unfold DataSeeder.driversToInsert.
  pose proof (parsePipeCsv_fields csvData) as H.
  induction H as [| row rows [_ Hrow] _ IH]; simpl.
  - reflexivity.
  - rewrite IH, driversOfRow_nothing; [reflexivity |].
    eapply List.Forall_impl; [| exact Hrow]. now intros f [Hf _].
Qed.

End Seeder.

(** ** Times *)

Section Times.

Lemma between_chars (lo hi c : ascii) :
  TimeFormat.between lo hi c = true -> In c (Text.chars lo hi).
Proof.
  unfold TimeFormat.between, Text.chars. intros H.
  apply andb_true_iff in H as [Hlo Hhi].
  apply Nat.leb_le in Hlo, Hhi.
  rewrite <- (ascii_nat_embedding c). apply in_map, in_seq. lia.
Qed.

Lemma minutesPart_listed (m1 m2 : ascii) :
  TimeFormat.minutesPart m1 m2 = true ->
  In (String ":" (String m1 (String m2 EmptyString))) Text.minutesParts.
Proof.
  unfold TimeFormat.minutesPart, Text.minutesParts. intros H.
  apply andb_true_iff in H as [H1 H2].
  apply in_flat_map. exists m1. split; [now apply between_chars |].
  apply in_map_iff. exists m2. split; [reflexivity | now apply between_chars].
Qed.

Lemma eqb_colon (c : ascii) : Ascii.eqb c ":" = true -> c = ":"%char.
Proof. apply Ascii.eqb_eq. Qed.

(** The validator accepts only strings of the table. *)
Lemma test_listed (time : string) :
  TimeFormat.test time = true -> In time Text.validTimes.
Proof.
  unfold TimeFormat.test. intros H.
  destruct time as [| c1 [| c2 [| c3 [| c4 [| c5 [| c6 time]]]]]];
    cbn [list_ascii_of_string] in H; try discriminate H;
    unfold Text.validTimes.
  - apply andb_true_iff in H as [H Hm].
    apply andb_true_iff in H as [Hh Hc]. apply eqb_colon in Hc as ->.
    apply in_or_app. left.
    apply in_flat_map. exists c1. split; [now apply between_chars |].
    apply in_map. now apply minutesPart_listed.
  - apply andb_true_iff in H as [H Hm].
    apply andb_true_iff in H as [Hh Hc]. apply eqb_colon in Hc as ->.
    apply in_or_app. right. apply in_or_app.
    apply orb_true_iff in Hh as [Hh | Hh]; apply andb_true_iff in Hh as [H1 H2].
    + left. apply in_flat_map. exists c1. split; [now apply between_chars |].
      apply in_flat_map. exists c2. split; [now apply between_chars |].
      apply in_map_iff. eexists. split; [reflexivity |].
      now apply minutesPart_listed.
    + right. apply Ascii.eqb_eq in H1 as ->.
      apply in_flat_map. exists c2. split; [now apply between_chars |].
      apply in_map_iff. eexists. split; [reflexivity |].
      now apply minutesPart_listed.
Qed.

Lemma validTimes_round_trip : forallb Text.roundTrips Text.validTimes = true.
Proof. vm_compute. reflexivity. Qed.

(** X19: a time that the validator of the schemas accepts converts to a
    minute of the day, never to [NaN], and [minutesToTime] gives back the
    time, with a 0 in front when the hour was written with one digit. *)
Theorem valid_time_round_trip (time : string) :
  TimeFormat.test time = true ->
  exists m,
    timeToMinutes time = Some m
    /\ 0 <= m < 1440
    /\ Clock.minutesToTime m
       = (if (String.length time =? 5)%nat then time else String "0" time).
Proof.
  intros H. apply test_listed in H.
  pose proof validTimes_round_trip as All.
  rewrite forallb_forall in All. specialize (All time H).
  unfold Text.roundTrips in All.
  destruct (timeToMinutes time) as [m |]; [| discriminate].
  exists m. apply andb_true_iff in All as [B E].
  apply andb_true_iff in B as [L U].
  apply Z.leb_le in L. apply Z.ltb_lt in U. apply String.eqb_eq in E.
  split; [reflexivity |]. split; [lia | exact E].
Qed.

End Times.

(** ** Minutes written and read back *)

Section MinutesRoundTrip.

Lemma digits_cons (acc v : Z) (c : ascii) (s : string) :
  JS.digit c = Some v ->
  JS.digits acc (String c s) = JS.digits (10 * acc + v) s.
Proof. intros H. simpl. now rewrite H. Qed.

Lemma digits_uint_acc (d : Decimal.uint) (p : positive) :
  JS.digits (Z.pos p) (NilEmpty.string_of_uint d)
  = Some (Z.pos (Pos.of_uint_acc d p)).
Proof.
  revert p. induction d as [| d IH | d IH | d IH | d IH | d IH | d IH
                            | d IH | d IH | d IH | d IH]; intros p;
    cbn [NilEmpty.string_of_uint Pos.of_uint_acc]; [reflexivity | ..].
  - rewrite (digits_cons _ 0) by reflexivity. rewrite <- IH. f_equal; lia.
  - rewrite (digits_cons _ 1) by reflexivity. rewrite <- IH. f_equal; lia.
  - rewrite (digits_cons _ 2) by reflexivity. rewrite <- IH. f_equal; lia.
  - rewrite (digits_cons _ 3) by reflexivity. rewrite <- IH. f_equal; lia.
  - rewrite (digits_cons _ 4) by reflexivity. rewrite <- IH. f_equal; lia.
  - rewrite (digits_cons _ 5) by reflexivity. rewrite <- IH. f_equal; lia.
  - rewrite (digits_cons _ 6) by reflexivity. rewrite <- IH. f_equal; lia.
  - rewrite (digits_cons _ 7) by reflexivity. rewrite <- IH. f_equal; lia.
  - rewrite (digits_cons _ 8) by reflexivity. rewrite <- IH. f_equal; lia.
  - rewrite (digits_cons _ 9) by reflexivity. rewrite <- IH. f_equal; lia.
Qed.

Lemma digits_uint (d : Decimal.uint) :
  JS.digits 0 (NilEmpty.string_of_uint d) = Some (Z.of_N (Pos.of_uint d)).
Proof.
  induction d as [| d IH | d IH | d IH | d IH | d IH | d IH
                  | d IH | d IH | d IH | d IH];
    cbn [NilEmpty.string_of_uint Pos.of_uint]; [reflexivity | ..].
  - rewrite (digits_cons _ 0) by reflexivity. exact IH.
  - rewrite (digits_cons _ 1) by reflexivity. apply (digits_uint_acc d 1).
  - rewrite (digits_cons _ 2) by reflexivity. apply (digits_uint_acc d 2).
  - rewrite (digits_cons _ 3) by reflexivity. apply (digits_uint_acc d 3).
  - rewrite (digits_cons _ 4) by reflexivity. apply (digits_uint_acc d 4).
  - rewrite (digits_cons _ 5) by reflexivity. apply (digits_uint_acc d 5).
  - rewrite (digits_cons _ 6) by reflexivity. apply (digits_uint_acc d 6).
  - rewrite (digits_cons _ 7) by reflexivity. apply (digits_uint_acc d 7).
  - rewrite (digits_cons _ 8) by reflexivity. apply (digits_uint_acc d 8).
  - rewrite (digits_cons _ 9) by reflexivity. apply (digits_uint_acc d 9).
Qed.

Lemma uint_no_colon (d : Decimal.uint) :
  Text.occurs ":" (NilEmpty.string_of_uint d) = false.
Proof.
  induction d; cbn [NilEmpty.string_of_uint Text.occurs]; try reflexivity;
    rewrite IHd; reflexivity.
Qed.

(** A whole number that is not negative is read back from its digits. *)
Lemma Number_toString (n : Z) :
  0 <= n ->
  JS.Number (JSLib.toString n) = Some n
  /\ Text.occurs ":" (JSLib.toString n) = false.
Proof.
  intros Hn. unfold JSLib.toString, JS.Number.
  destruct n as [| p | p]; [split; reflexivity | | lia].
  cbn [Z.to_int NilZero.string_of_int]. unfold NilZero.string_of_uint.
  destruct (Pos.to_uint p) eqn:E;
    try (now elim (Unsigned.to_uint_nonnil p));
    rewrite <- E; (split; [| apply uint_no_colon]);
    rewrite digits_uint, Unsigned.of_to; reflexivity.
Qed.

Lemma padStart_zero (k : nat) (s : string) :
  JS.digits 0 (JSLib.padStart k "0" s) = JS.digits 0 s
  /\ Text.occurs ":" (JSLib.padStart k "0" s) = Text.occurs ":" s.
Proof.
  unfold JSLib.padStart. generalize (k - String.length s)%nat as z. intros z.
  induction z as [| z [IH1 IH2]]; simpl; [split; reflexivity |].
  split; [exact IH1 | exact IH2].
Qed.

(** X20: a whole number of minutes that is not negative, written as a time
    by [minutesToTime], is read back by [timeToMinutes]. *)
Theorem minutes_round_trip (minutes : Z) :
  0 <= minutes < 2 ^ 53 ->
  timeToMinutes (Clock.minutesToTime minutes) = Some minutes.
Proof.
  intros [Hlo _].
  unfold timeToMinutes, JS.hhmm_minutes, Clock.minutesToTime. cbv zeta.
  assert (0 <= minutes / 60) as Hh by (apply Z.div_pos; lia).
  assert (0 <= Z.rem minutes 60) as Hm by (apply Z.rem_nonneg; lia).
  destruct (Number_toString _ Hh) as [Nh Ch].
  destruct (Number_toString _ Hm) as [Nm Cm].
  destruct (padStart_zero 2 (JSLib.toString (minutes / 60))) as [Ph Oh].
  destruct (padStart_zero 2 (JSLib.toString (Z.rem minutes 60))) as [Pm Om].
  rewrite split_colon_split, split_app by (now rewrite Oh).
  rewrite split_free by (now rewrite Om).
  cbn [List.map]. unfold JS.Number in *.
  rewrite Ph, Pm, Nh, Nm. f_equal.
  rewrite Z.rem_mod_nonneg by lia.
  pose proof (Z.div_mod minutes 60). lia.
Qed.

End MinutesRoundTrip.

(** ** Numbers written and read back by the seeder *)

Section SeederNumbers.








End SeederNumbers.

(** ** The order in which the orders are processed *)

Section ProcessingOrder.

Local Open Scope Q_scope.

Lemma orderAfter_false (a b : Order.t) :
  orderAfter a b = false ->
  Order.valueRs b <= Order.valueRs a
  /\ (Order.valueRs a == Order.valueRs b ->
      forall ma mb,
        Order.getDeliveryTimeInMinutes a = Some ma ->
        Order.getDeliveryTimeInMinutes b = Some mb -> (ma <= mb)%Z).
Proof.
  unfold orderAfter, compareOrders, JS.neqb.
  destruct (Qeq_bool (Order.valueRs a) (Order.valueRs b)) eqn:E; simpl.
  - apply Qeq_bool_iff in E. intros H. split; [rewrite E; apply Qle_refl |].
    intros _ ma mb Ha Hb. rewrite Ha, Hb in H.
    apply gtb_false in H. change 0 with (inject_Z 0) in H.
    rewrite <- Zle_Qle in H. lia.
  - intros H. apply gtb_false in H. split; [lra |].
    intros E'. apply Qeq_bool_iff in E'. congruence.
Qed.

(** X22: the planner processes the pending orders, each once, by
    descending value, and orders of equal value by ascending minute of
    their delivery time. *)
Theorem sortOrders_by_value_then_time (orders : list Order.t) :
  Permutation orders (sortOrders orders)
  /\ Sorted
       (fun a b =>
          Order.valueRs b <= Order.valueRs a
          /\ (Order.valueRs a == Order.valueRs b ->
              forall ma mb,
                Order.getDeliveryTimeInMinutes a = Some ma ->
                Order.getDeliveryTimeInMinutes b = Some mb -> (ma <= mb)%Z))
       (sortOrders orders).
Proof.
  unfold sortOrders. split; [apply sort_perm |].
  pose proof (sort_sorted orderAfter orderAfter_asym orders) as H.
  induction H as [| a l Hs IH Hd]; constructor; [exact IH |].
  destruct Hd as [| b l Hab]; constructor. now apply orderAfter_false.
Qed.

End ProcessingOrder.

(** ** The further properties at sample inputs *)

Section MoreAtSamples.

Local Open Scope Q_scope.

(** The rows of the drivers file are found, and no driver comes of them;
    the routes file gives its two routes. *)
Example seeder_on_files :
  DataSeeder.parsePipeCsv MoreSamples.driversCsv
  = [["Amit"; "6"; "6"; "8"; "7"; "7"; "7"; "6"; "10"];
     ["Priya"; "6"; "10"; "9"; "6"; "6"; "6"; "7"; "7"]]%string
  /\ DataSeeder.driversToInsert MoreSamples.driversCsv = []
  /\ DataSeeder.routesToInsert MoreSamples.routesCsv
     = [{| DataSeeder.routeId := 1; DataSeeder.distanceKm := 25;
           DataSeeder.trafficLevel := "High"; DataSeeder.baseTimeMin := 125 |};
        {| DataSeeder.routeId := 2; DataSeeder.distanceKm := 12;
           DataSeeder.trafficLevel := "Low"; DataSeeder.baseTimeMin := 48 |}]%Z.
Proof. repeat split; reflexivity. Qed.

(** The engine's tests of [minutesToTime], and a number of minutes below 0. *)
Example minutesToTime_tests :
  Clock.minutesToTime 540 = "09:00"%string
  /\ Clock.minutesToTime 750 = "12:30"%string
  /\ Clock.minutesToTime 0 = "00:00"%string
  /\ Clock.minutesToTime 1439 = "23:59"%string
  /\ Clock.minutesToTime (-5) = "-1:-5"%string.
Proof. repeat split; reflexivity. Qed.

(** The second page of 25 simulations, 10 to a page. *)
Example history_second_page :
  History.pagination (Some "2"%string) None 25
  = {| History.currentPage := 2; History.totalPages := 3;
       History.totalSimulations := 25;
       History.hasNext := true; History.hasPrev := true |}%Z
  /\ History.skip (Some "2"%string) None = 10%Z.
Proof. split; reflexivity. Qed.

Lemma dangling_order_not_committed_sample :
  st_routeMap MoreSamples.dangling !! Order.routeId (Sample.order 2 900 9 "11:00") = None
  /\ ~ Exists (carries (Sample.order 2 900 9 "11:00"))
         (fst (optimizeOrderAssignment MoreSamples.dangling "09:00" 8)).
Proof.
  assert (st_routeMap MoreSamples.dangling
            !! Order.routeId (Sample.order 2 900 9 "11:00") = None) as H
    by (vm_compute; reflexivity).
  split; [exact H |].
  exact (dangling_order_not_committed MoreSamples.dangling "09:00" 8 _ H).
Defined.

Lemma fatigue_never_helps_sample :
  0 <= Route.baseTimeMin (Sample.route 1 10 Medium 60)
  /\ (calculateOrderTime (Sample.route 1 10 Medium 60) false
      <= calculateOrderTime (Sample.route 1 10 Medium 60) true)%Z.
Proof.
  assert (0 <= Route.baseTimeMin (Sample.route 1 10 Medium 60)) as H
    by (unfold Qle; simpl; lia).
  split; [exact H |].
  exact (proj1 (fatigue_never_helps (Sample.route 1 10 Medium 60) H)).
Defined.

Lemma long_route_is_late_sample :
  10 < Route.baseTimeMin (Sample.route 2 20 High 60)
       * (Route.trafficMultiplier (Route.trafficLevel (Sample.route 2 20 High 60)) - 1)
  /\ isOrderLate (Sample.order 1 500 2 "10:00") (Sample.route 2 20 High 60) true = true.
Proof.
  assert (10 < Route.baseTimeMin (Sample.route 2 20 High 60)
               * (Route.trafficMultiplier
                    (Route.trafficLevel (Sample.route 2 20 High 60)) - 1)) as H
    by reflexivity.
  split; [exact H |].
  exact (long_route_is_late (Sample.order 1 500 2 "10:00") _ true H).
Defined.

Lemma low_route_rested_on_time_sample :
  isOrderLate (Sample.order 1 500 1 "10:00") (Sample.route 1 10 Low 30) false = false.
Proof.
  exact (low_route_rested_on_time (Sample.order 1 500 1 "10:00")
           (Sample.route 1 10 Low 30) eq_refl).
Defined.

Lemma getWeeklyAverage_range_sample :
  0 <= DriverModel.getWeeklyAverage (Sample.driver 1 "A" 9)
  /\ DriverModel.getWeeklyAverage (Sample.driver 1 "A" 9) <= 24.
Proof.
  apply (getWeeklyAverage_range (Sample.driver 1 "A" 9)).
  - reflexivity.
  - repeat constructor; unfold Qle; simpl; lia.
Defined.

Lemma history_next_and_prev_sample :
  History.hasNext (History.pagination (Some "2"%string) None 25) = true
  <-> (History.skip (Some "2"%string) None + History.limit None < 25)%Z.
Proof.
  refine (proj1 (history_next_and_prev (Some "2"%string) None 25 _ _)).
  - vm_compute. discriminate.
  - vm_compute. discriminate.
Defined.

Lemma valid_time_round_trip_sample :
  exists m,
    timeToMinutes "9:30" = Some m
    /\ (0 <= m < 1440)%Z
    /\ Clock.minutesToTime m = "09:30"%string.
Proof.
  exact (valid_time_round_trip "9:30" eq_refl).
Defined.

Lemma minutes_round_trip_sample :
  timeToMinutes (Clock.minutesToTime 1439) = Some 1439%Z.
Proof.
  apply (minutes_round_trip 1439). split; [lia | reflexivity].
Defined.


End MoreAtSamples.

(** ** The fuel cost recomputed from a stored simulation *)

Section StoredFuelCost.

Local Open Scope Q_scope.

Variable assignments : list Assignment.
Variable routeMap : gmap Z Route.t.

Lemma whole_plus (x y : Q) : whole x -> whole y -> whole (x + y).
Proof.
  intros [a Ha] [b Hb]. exists (a + b)%Z. rewrite inject_Z_plus, Ha, Hb. reflexivity.
Qed.

Lemma whole_round (x : Q) : whole x -> inject_Z (JS.round x) == x.
Proof.
  intros [a Ha]. rewrite (round_eq _ _ Ha), round_of_integer. now symmetry.
Qed.

Lemma fuelCost_whole (route : Route.t) :
  whole (Route.distanceKm route) -> whole (calculateFuelCost route).
Proof.
  intros [d Hd]. unfold calculateFuelCost, BASE_FUEL_COST, HIGH_TRAFFIC_SURCHARGE.
  destruct (Route.trafficLevel route).
  - exists (d * 5)%Z. rewrite inject_Z_mult, Hd. reflexivity.
  - exists (d * 5)%Z. rewrite inject_Z_mult, Hd. reflexivity.
  - exists (d * 5 + d * 2)%Z. rewrite inject_Z_plus, !inject_Z_mult, Hd. reflexivity.
Qed.

(** X23: when the distance of every route of the lookup is a whole number,
    as in the seeded data, the total that a stored simulation recomputes
    from its three rounded buckets is the total fuel cost that the engine
    reported, with no rounding difference. *)
Theorem getTotalFuelCost_exact :
  (forall id route, routeMap !! id = Some route -> whole (Route.distanceKm route)) ->
  SimulationModel.getTotalFuelCost
    (fuelCostBreakdown (calculateKPIs assignments routeMap))
  = totalFuelCost (calculateKPIs assignments routeMap).
Proof.
  intros Hwhole.
  unfold SimulationModel.getTotalFuelCost, calculateKPIs, report.
  cbn [fuelCostBreakdown totalFuelCost lowTraffic mediumTraffic highTraffic].
  pose proof (run_buckets_ok assignments routeMap) as Hsum.
  assert (buckets_whole
            (fold_left (countAssignment routeMap) assignments startRunning)) as Hw.
  { apply (count_invariant routeMap buckets_whole).
    - repeat split; exists 0%Z; reflexivity.
    - intros run ao (Hl & Hm & Hh). unfold countOrder.
      destruct (routeMap !! Order.routeId (order ao)) as [route |] eqn:Hr;
        [| now repeat split].
      pose proof (fuelCost_whole route (Hwhole _ _ Hr)) as Hf.
      unfold buckets_whole, addFuelCost. cbn [run_fuelCostBreakdown].
      destruct (Route.trafficLevel route); cbn [lowTraffic mediumTraffic highTraffic];
        repeat split; auto using whole_plus. }
  set (run := fold_left (countAssignment routeMap) assignments startRunning) in *.
  destruct Hw as (Hl & Hm & Hh). unfold buckets_ok in Hsum.
  apply inject_Z_injective. rewrite !inject_Z_plus.
  rewrite (whole_round _ Hl), (whole_round _ Hm), (whole_round _ Hh).
  rewrite whole_round; [exact Hsum |].
  destruct (whole_plus _ _ (whole_plus _ _ Hl Hm) Hh) as [z Hz].
  exists z. rewrite <- Hsum. exact Hz.
Qed.

End StoredFuelCost.

Section StoredFuelCostSample.

Lemma getTotalFuelCost_exact_sample :
  let plan := fst (optimizeOrderAssignment Sample.lateStore "09:00" 8) in
  SimulationModel.getTotalFuelCost
    (fuelCostBreakdown (calculateKPIs plan (st_routeMap Sample.lateStore)))
  = totalFuelCost (calculateKPIs plan (st_routeMap Sample.lateStore)).
Proof.
  cbv zeta. apply getTotalFuelCost_exact.
  intros id route H. simpl in H.
  apply lookup_singleton_Some in H as [_ <-].
  exists 10. reflexivity.
Defined.

End StoredFuelCostSample.
